(** * LISFLOOD rice irrigation module

    A shallow embedding of
    [src/lisflood/hydrological_modules/riceirrigation.py]
    (class [riceirrigation], methods [initial] and [dynamic]) and the
    properties of its phased, calendar-driven demand computation.

    Number model.  The Python code computes with NumPy double arrays.  Here a
    finite double is an exact rational ([Q]): rounding and overflow are
    idealised away, and equalities between numeric results are stated with the
    rational equality [==].  The division by a zero [SoilFraction] is kept
    visible: a quotient is an [xfloat], either [finite q] or [nonfinite]
    (NumPy's inf/nan of a division by zero, produced with a RuntimeWarning
    and no exception under the default error state).  [finite] therefore
    means "not the result of a division by zero"; that a double stays below
    the overflow threshold is nowhere concluded.

    Array model.  Every map is a one-dimensional array over the cells of the
    mask; an array is a total function from the cell index to its value, an
    elementwise NumPy operation is the pointwise operation, and a Python scalar
    broadcasts to the constant array. *)

From Stdlib Require Import QArith Qminmax Bool Arith String List Lia Lqa.
Import ListNotations.

Local Open Scope Q_scope.

(** ** Numbers *)

(** [a < b] on finite values, as a boolean. *)
Definition Qlt_bool (x y : Q) : bool := negb (Qle_bool y x).

(** A double that may be non-finite. *)
Inductive xfloat : Type :=
| finite (q : Q)
| nonfinite.

Coercion finite : Q >-> xfloat.

(** Equality of doubles up to the representation of the rational. *)
Definition xeq (x y : xfloat) : Prop :=
  match x, y with
  | finite a, finite b => a == b
  | nonfinite, nonfinite => True
  | _, _ => False
  end.

(** [x + y]: a non-finite operand gives a non-finite sum.  The sum of two
    finite values is the exact sum: an overflow of the double is not
    modelled. *)
Definition xadd (x y : xfloat) : xfloat :=
  match x, y with
  | finite a, finite b => finite (a + b)
  | _, _ => nonfinite
  end.

(** [a / b] of two finite doubles: non-finite when the divisor is zero.
    For a non-zero divisor the quotient is the exact one: an overflow of the
    double (a tiny divisor) is not modelled, so nothing is concluded from a
    value being [finite] here beyond its not being a division by zero. *)
Definition xdiv (a b : Q) : xfloat :=
  if Qeq_bool b 0 then nonfinite else finite (a / b).

(** ** NumPy arrays over the mask *)

Module Np.

Definition cell := nat.

(** A masked one-dimensional array with entries in [A]. *)
Definition ndarray (A : Type) : Type := cell -> A.

Definition farray : Type := ndarray Q.
Definition xarray : Type := ndarray xfloat.
Definition barray : Type := ndarray bool.

(** Broadcasting of a Python scalar. *)
Definition scalar (q : Q) : farray := fun _ => q.
Definition xscalar (x : xfloat) : xarray := fun _ => x.

Definition add (a b : farray) : farray := fun i => a i + b i.
Definition sub (a b : farray) : farray := fun i => a i - b i.
Definition mul (a b : farray) : farray := fun i => a i * b i.
Definition divide (a b : farray) : xarray := fun i => xdiv (a i) (b i).
Definition maximum (a b : farray) : farray := fun i => Qmax (a i) (b i).

Definition less (a b : farray) : barray := fun i => Qlt_bool (a i) (b i).
Definition greater (a b : farray) : barray := fun i => Qlt_bool (b i) (a i).
Definition greater_equal (a b : farray) : barray :=
  fun i => Qle_bool (b i) (a i).
Definition logical_and (c d : barray) : barray := fun i => c i && d i.

(** [np.where(c, a, b)]: both [a] and [b] are fully evaluated arrays; the
    result takes [a] where [c] holds and [b] elsewhere. *)
Definition where_ {A : Type} (c : barray) (a b : ndarray A) : ndarray A :=
  fun i => if c i then a i else b i.

(** In-place [row += inc] on a row that may hold non-finite values. *)
Definition iadd (row inc : xarray) : xarray := fun i => xadd (row i) (inc i).

End Np.

Import Np.

Coercion Np.scalar : Q >-> Np.farray.
Coercion Np.xscalar : xfloat >-> Np.xarray.

Declare Scope np_scope.
Delimit Scope np_scope with np.
Bind Scope np_scope with farray.
Bind Scope np_scope with xarray.
Bind Scope np_scope with barray.

Notation "a + b" := (Np.add a b) : np_scope.
Notation "a - b" := (Np.sub a b) : np_scope.
Notation "a * b" := (Np.mul a b) : np_scope.
Notation "a / b" := (Np.divide a b) : np_scope.
Notation "a < b" := (Np.less a b) : np_scope.
Notation "a > b" := (Np.greater a b) : np_scope.
Notation "a >= b" := (Np.greater_equal a b) : np_scope.
Notation "c & d" := (Np.logical_and c d) (at level 75, right associativity) : np_scope.

(** ** Settings, mask and errors *)

(** [LisSettings.instance().options]: the two switches the module reads. *)
Record Options : Type := {
  riceIrrigation : bool;
  wateruse : bool
}.

(** [MaskInfo.instance().in_zero()]: the array of zeros over the mask. *)
Definition in_zero : farray := fun _ => 0.

(** Exceptions that can leave the module. *)
Inductive exn : Type :=
| LisfloodError (msg : string).

(** ** The variable object [self.var] *)

(** The attributes of [self.var] the module reads or writes.  The
    [xarray.DataArray] attributes ([X.values[k]]) are indexed first by the
    vegetation or land-use index and then by the cell. *)
Record Var : Type := {
  PaddyRiceWaterAbstractionFromSurfaceWaterM3 : farray;
  RiceFlooding : farray;
  RicePercolation : farray;
  RicePlantingDay1 : farray;
  RiceHarvestDay1 : farray;
  RicePlantingDay2 : farray;
  RiceHarvestDay2 : farray;
  get_landuse_and_indexes_from_vegetation_GLOBAL : string -> nat * nat * nat;
  WS1 : nat -> farray;
  W1 : nat -> farray;
  WFC1 : nat -> farray;
  ESAct : nat -> farray;
  Ta : nat -> farray;
  EWRef : farray;
  RiceFraction : farray;
  MMtoM3 : farray;
  M3toMM : farray;
  DtDay : Q;
  CalendarDay : farray;
  SoilFraction : nat -> farray;
  UZ : nat -> xarray
}.

(** Attribute assignments [self.var.X = a]. *)
Definition set_PaddyRiceWaterAbstractionFromSurfaceWaterM3 (a : farray) (v : Var) : Var :=
  {| PaddyRiceWaterAbstractionFromSurfaceWaterM3 := a;
     RiceFlooding := RiceFlooding v; RicePercolation := RicePercolation v;
     RicePlantingDay1 := RicePlantingDay1 v; RiceHarvestDay1 := RiceHarvestDay1 v;
     RicePlantingDay2 := RicePlantingDay2 v; RiceHarvestDay2 := RiceHarvestDay2 v;
     get_landuse_and_indexes_from_vegetation_GLOBAL :=
       get_landuse_and_indexes_from_vegetation_GLOBAL v;
     WS1 := WS1 v; W1 := W1 v; WFC1 := WFC1 v; ESAct := ESAct v; Ta := Ta v;
     EWRef := EWRef v; RiceFraction := RiceFraction v; MMtoM3 := MMtoM3 v;
     M3toMM := M3toMM v; DtDay := DtDay v; CalendarDay := CalendarDay v;
     SoilFraction := SoilFraction v; UZ := UZ v |}.

Definition set_RiceFlooding (a : farray) (v : Var) : Var :=
  {| PaddyRiceWaterAbstractionFromSurfaceWaterM3 :=
       PaddyRiceWaterAbstractionFromSurfaceWaterM3 v;
     RiceFlooding := a; RicePercolation := RicePercolation v;
     RicePlantingDay1 := RicePlantingDay1 v; RiceHarvestDay1 := RiceHarvestDay1 v;
     RicePlantingDay2 := RicePlantingDay2 v; RiceHarvestDay2 := RiceHarvestDay2 v;
     get_landuse_and_indexes_from_vegetation_GLOBAL :=
       get_landuse_and_indexes_from_vegetation_GLOBAL v;
     WS1 := WS1 v; W1 := W1 v; WFC1 := WFC1 v; ESAct := ESAct v; Ta := Ta v;
     EWRef := EWRef v; RiceFraction := RiceFraction v; MMtoM3 := MMtoM3 v;
     M3toMM := M3toMM v; DtDay := DtDay v; CalendarDay := CalendarDay v;
     SoilFraction := SoilFraction v; UZ := UZ v |}.

Definition set_RicePercolation (a : farray) (v : Var) : Var :=
  {| PaddyRiceWaterAbstractionFromSurfaceWaterM3 :=
       PaddyRiceWaterAbstractionFromSurfaceWaterM3 v;
     RiceFlooding := RiceFlooding v; RicePercolation := a;
     RicePlantingDay1 := RicePlantingDay1 v; RiceHarvestDay1 := RiceHarvestDay1 v;
     RicePlantingDay2 := RicePlantingDay2 v; RiceHarvestDay2 := RiceHarvestDay2 v;
     get_landuse_and_indexes_from_vegetation_GLOBAL :=
       get_landuse_and_indexes_from_vegetation_GLOBAL v;
     WS1 := WS1 v; W1 := W1 v; WFC1 := WFC1 v; ESAct := ESAct v; Ta := Ta v;
     EWRef := EWRef v; RiceFraction := RiceFraction v; MMtoM3 := MMtoM3 v;
     M3toMM := M3toMM v; DtDay := DtDay v; CalendarDay := CalendarDay v;
     SoilFraction := SoilFraction v; UZ := UZ v |}.

Definition set_RicePlantingDay1 (a : farray) (v : Var) : Var :=
  {| PaddyRiceWaterAbstractionFromSurfaceWaterM3 :=
       PaddyRiceWaterAbstractionFromSurfaceWaterM3 v;
     RiceFlooding := RiceFlooding v; RicePercolation := RicePercolation v;
     RicePlantingDay1 := a; RiceHarvestDay1 := RiceHarvestDay1 v;
     RicePlantingDay2 := RicePlantingDay2 v; RiceHarvestDay2 := RiceHarvestDay2 v;
     get_landuse_and_indexes_from_vegetation_GLOBAL :=
       get_landuse_and_indexes_from_vegetation_GLOBAL v;
     WS1 := WS1 v; W1 := W1 v; WFC1 := WFC1 v; ESAct := ESAct v; Ta := Ta v;
     EWRef := EWRef v; RiceFraction := RiceFraction v; MMtoM3 := MMtoM3 v;
     M3toMM := M3toMM v; DtDay := DtDay v; CalendarDay := CalendarDay v;
     SoilFraction := SoilFraction v; UZ := UZ v |}.

Definition set_RiceHarvestDay1 (a : farray) (v : Var) : Var :=
  {| PaddyRiceWaterAbstractionFromSurfaceWaterM3 :=
       PaddyRiceWaterAbstractionFromSurfaceWaterM3 v;
     RiceFlooding := RiceFlooding v; RicePercolation := RicePercolation v;
     RicePlantingDay1 := RicePlantingDay1 v; RiceHarvestDay1 := a;
     RicePlantingDay2 := RicePlantingDay2 v; RiceHarvestDay2 := RiceHarvestDay2 v;
     get_landuse_and_indexes_from_vegetation_GLOBAL :=
       get_landuse_and_indexes_from_vegetation_GLOBAL v;
     WS1 := WS1 v; W1 := W1 v; WFC1 := WFC1 v; ESAct := ESAct v; Ta := Ta v;
     EWRef := EWRef v; RiceFraction := RiceFraction v; MMtoM3 := MMtoM3 v;
     M3toMM := M3toMM v; DtDay := DtDay v; CalendarDay := CalendarDay v;
     SoilFraction := SoilFraction v; UZ := UZ v |}.

Definition set_RicePlantingDay2 (a : farray) (v : Var) : Var :=
  {| PaddyRiceWaterAbstractionFromSurfaceWaterM3 :=
       PaddyRiceWaterAbstractionFromSurfaceWaterM3 v;
     RiceFlooding := RiceFlooding v; RicePercolation := RicePercolation v;
     RicePlantingDay1 := RicePlantingDay1 v; RiceHarvestDay1 := RiceHarvestDay1 v;
     RicePlantingDay2 := a; RiceHarvestDay2 := RiceHarvestDay2 v;
     get_landuse_and_indexes_from_vegetation_GLOBAL :=
       get_landuse_and_indexes_from_vegetation_GLOBAL v;
     WS1 := WS1 v; W1 := W1 v; WFC1 := WFC1 v; ESAct := ESAct v; Ta := Ta v;
     EWRef := EWRef v; RiceFraction := RiceFraction v; MMtoM3 := MMtoM3 v;
     M3toMM := M3toMM v; DtDay := DtDay v; CalendarDay := CalendarDay v;
     SoilFraction := SoilFraction v; UZ := UZ v |}.

Definition set_RiceHarvestDay2 (a : farray) (v : Var) : Var :=
  {| PaddyRiceWaterAbstractionFromSurfaceWaterM3 :=
       PaddyRiceWaterAbstractionFromSurfaceWaterM3 v;
     RiceFlooding := RiceFlooding v; RicePercolation := RicePercolation v;
     RicePlantingDay1 := RicePlantingDay1 v; RiceHarvestDay1 := RiceHarvestDay1 v;
     RicePlantingDay2 := RicePlantingDay2 v; RiceHarvestDay2 := a;
     get_landuse_and_indexes_from_vegetation_GLOBAL :=
       get_landuse_and_indexes_from_vegetation_GLOBAL v;
     WS1 := WS1 v; W1 := W1 v; WFC1 := WFC1 v; ESAct := ESAct v; Ta := Ta v;
     EWRef := EWRef v; RiceFraction := RiceFraction v; MMtoM3 := MMtoM3 v;
     M3toMM := M3toMM v; DtDay := DtDay v; CalendarDay := CalendarDay v;
     SoilFraction := SoilFraction v; UZ := UZ v |}.

(** In-place update of one row, [self.var.UZ.values[k][:] += inc]: the row
    [k] is overwritten cell by cell, the other rows are untouched. *)
Definition iadd_UZ_row (k : nat) (inc : xarray) (v : Var) : Var :=
  {| PaddyRiceWaterAbstractionFromSurfaceWaterM3 :=
       PaddyRiceWaterAbstractionFromSurfaceWaterM3 v;
     RiceFlooding := RiceFlooding v; RicePercolation := RicePercolation v;
     RicePlantingDay1 := RicePlantingDay1 v; RiceHarvestDay1 := RiceHarvestDay1 v;
     RicePlantingDay2 := RicePlantingDay2 v; RiceHarvestDay2 := RiceHarvestDay2 v;
     get_landuse_and_indexes_from_vegetation_GLOBAL :=
       get_landuse_and_indexes_from_vegetation_GLOBAL v;
     WS1 := WS1 v; W1 := W1 v; WFC1 := WFC1 v; ESAct := ESAct v; Ta := Ta v;
     EWRef := EWRef v; RiceFraction := RiceFraction v; MMtoM3 := MMtoM3 v;
     M3toMM := M3toMM v; DtDay := DtDay v; CalendarDay := CalendarDay v;
     SoilFraction := SoilFraction v;
     UZ := fun j => if Nat.eqb j k then Np.iadd (UZ v k) inc else UZ v j |}.

(** ** Effects: state, map loading and exceptions *)

(** What the module can change: the variable object, and the record of the
    maps requested from [loadmap], oldest first. *)
Record World : Type := {
  var : Var;
  loaded : list string
}.

(** What the module only reads: the options of the settings file and the
    content of the map each settings key binds. *)
Record Env : Type := {
  options : Options;
  map_file : string -> exn + farray
}.

Inductive outcome (A : Type) : Type :=
| Return (a : A)
| Raise (e : exn).

Arguments Return {A} a.
Arguments Raise {A} e.

(** A computation reads the environment, changes the world and either returns
    or raises; a raised exception skips the rest of the method. *)
Definition M (A : Type) : Type := Env -> World -> outcome A * World.

Definition ret {A : Type} (a : A) : M A := fun _ w => (Return a, w).

Definition bind {A B : Type} (m : M A) (k : A -> M B) : M B :=
  fun e w =>
    match m e w with
    | (Return a, w') => k a e w'
    | (Raise x, w') => (Raise x, w')
    end.

Definition raise {A : Type} (x : exn) : M A := fun _ w => (Raise x, w).

Definition get_option : M Options := fun e w => (Return (options e), w).

Definition get_var : M Var := fun _ w => (Return (var w), w).

Definition modify_var (f : Var -> Var) : M unit :=
  fun _ w => (Return tt, {| var := f (var w); loaded := loaded w |}).

(** [loadmap(name)] of [global_modules.add1]: the request is recorded, then
    the map is returned, or the loader's own exception is propagated. *)
Definition loadmap (name : string) : M farray :=
  fun e w =>
    let w' := {| var := var w; loaded := loaded w ++ [name] |} in
    match map_file e name with
    | inr a => (Return a, w')
    | inl x => (Raise x, w')
    end.

Declare Scope monad_scope.
Delimit Scope monad_scope with monad.

Notation "x <- m ;; k" := (bind m (fun x => k))
  (at level 61, m at next level, right associativity) : monad_scope.
Notation "m ;; k" := (bind m (fun _ => k))
  (at level 61, right associativity) : monad_scope.

Local Open Scope string_scope.
Local Open Scope monad_scope.

(** ** [riceirrigation.initial] *)

Definition initial : M unit :=
  modify_var (set_PaddyRiceWaterAbstractionFromSurfaceWaterM3 in_zero) ;;
  option <- get_option ;;
  if riceIrrigation option then
    (if negb (wateruse option) then
       let msg :=
         "riceIrrigation module ON MUST HAVE wateruse option ON in setting file" in
       raise (LisfloodError msg)
     else ret tt) ;;
    a <- loadmap "RiceFlooding" ;; modify_var (set_RiceFlooding a) ;;
    a <- loadmap "RicePercolation" ;; modify_var (set_RicePercolation a) ;;
    a <- loadmap "RicePlantingDay1" ;; modify_var (set_RicePlantingDay1 a) ;;
    a <- loadmap "RiceHarvestDay1" ;; modify_var (set_RiceHarvestDay1 a) ;;
    a <- loadmap "RicePlantingDay2" ;; modify_var (set_RicePlantingDay2 a) ;;
    a <- loadmap "RiceHarvestDay2" ;; modify_var (set_RiceHarvestDay2 a)
  else ret tt.

(** ** [riceirrigation.dynamic] *)

(** The local arrays of [dynamic], in the order of the source, computed from
    the variable object [v] and the indexes [iveg] and [ilanduse] of the
    vegetation "Rainfed_prescribed". *)
Section dynamic_locals.

Variable v : Var.
Variables iveg ilanduse : nat.

Local Open Scope np_scope.

Definition RiceSoilSaturationDemandM3 : farray :=
  (WS1 v ilanduse - W1 v iveg) * RiceFraction v * MMtoM3 v * DtDay v.

Definition pl_20 : farray :=
  let pl_20 := RicePlantingDay1 v - 20 in
  Np.where_ (pl_20 < 0) (365 + pl_20) pl_20.

Definition pl_10 : farray :=
  let pl_10 := RicePlantingDay1 v - 10 in
  Np.where_ (pl_10 < 0) (365 + pl_10) pl_10.

Definition ha_20 : farray :=
  let ha_20 := RiceHarvestDay1 v - 20 in
  Np.where_ (ha_20 < 0) (365 + ha_20) ha_20.

Definition ha_10 : farray :=
  let ha_10 := RiceHarvestDay1 v - 10 in
  Np.where_ (ha_10 < 0) (365 + ha_10) ha_10.

(** phase 1: field preparation, soil saturation *)
Definition RiceSoilSaturationM3 : farray :=
  Np.where_ ((CalendarDay v >= pl_20) & (CalendarDay v < pl_10))
            (0.1 * RiceSoilSaturationDemandM3) in_zero.

Definition RiceEva : farray :=
  Np.maximum (EWRef v - (ESAct v iveg + Ta v iveg)) 0.

Definition RiceEvaporationDemandM3 : farray :=
  RiceEva * RiceFraction v * MMtoM3 v.

Definition RiceFloodingDemandM3 : farray :=
  RiceFlooding v * RiceFraction v * MMtoM3 v * DtDay v.

(** phase 2: flood fields *)
Definition RiceFloodingM3 : farray :=
  Np.where_ ((CalendarDay v >= pl_10) & (CalendarDay v < RicePlantingDay1 v))
            (RiceFloodingDemandM3 + RiceEvaporationDemandM3) in_zero.

(** phase 3: planting, constant water level during the growing season *)
Definition RiceEvaporationM3 : farray :=
  Np.where_ ((CalendarDay v >= RicePlantingDay1 v) & (CalendarDay v < ha_20))
            RiceEvaporationDemandM3 in_zero.

Definition RicePercolationDemandM3 : farray :=
  RicePercolation v * RiceFraction v * MMtoM3 v * DtDay v.

Definition RicePercolationM3 : farray :=
  Np.where_ ((CalendarDay v >= RicePlantingDay1 v) & (CalendarDay v < ha_20))
            RicePercolationDemandM3 in_zero.

(** The right-hand side of the assignment to
    [self.var.PaddyRiceWaterAbstractionFromSurfaceWaterM3]. *)
Definition PaddyRiceWaterAbstractionFromSurfaceWaterM3_new : farray :=
  RiceSoilSaturationM3 + RiceFloodingM3 + RiceEvaporationM3 + RicePercolationM3.

(** phase 5: draining, 10 days before the harvest *)
Definition RiceDrainageDemandM3 : farray :=
  (WS1 v ilanduse - WFC1 v ilanduse) * RiceFraction v * MMtoM3 v * DtDay v.

Definition RiceDrainageM3 : farray :=
  Np.where_ ((CalendarDay v >= ha_10) & (CalendarDay v < RiceHarvestDay1 v))
            (0.1 * RiceDrainageDemandM3) in_zero.

(** The right-hand side of [self.var.UZ.values[iveg][:] += ...]: the
    quotient is computed for every cell, also where [SoilFraction] is zero,
    and [np.where] then selects. *)
Definition UZ_increment : xarray :=
  Np.where_ (SoilFraction v iveg > 0.0)
            ((RiceDrainageM3 + RicePercolationM3) * M3toMM v / SoilFraction v iveg)
            (0.0 : xarray).

End dynamic_locals.

Definition dynamic : M unit :=
  option <- get_option ;;
  if riceIrrigation option then
    let veg := "Rainfed_prescribed" in
    v <- get_var ;;
    let '(iveg, ilanduse, _) := get_landuse_and_indexes_from_vegetation_GLOBAL v veg in
    modify_var (set_PaddyRiceWaterAbstractionFromSurfaceWaterM3
                  (PaddyRiceWaterAbstractionFromSurfaceWaterM3_new v iveg ilanduse)) ;;
    modify_var (iadd_UZ_row iveg (UZ_increment v iveg ilanduse))
  else ret tt.

(** The world after one call of [dynamic], and the indexes it works with. *)
Definition dynamic_world (e : Env) (w : World) : World := snd (dynamic e w).

Definition rice_iveg (v : Var) : nat :=
  let '(iveg, _, _) := get_landuse_and_indexes_from_vegetation_GLOBAL v "Rainfed_prescribed" in
  iveg.

Definition rice_ilanduse (v : Var) : nat :=
  let '(_, ilanduse, _) := get_landuse_and_indexes_from_vegetation_GLOBAL v "Rainfed_prescribed" in
  ilanduse.

(** ** The specification's formulas

    The definitions of this section follow the words of the specification
    (day-wrap contract, phase table, evaporation demand); the theorems compare
    them with the arrays of [dynamic]. *)

(** [wrap(day, offset)]: [day - offset] if that value is [>= 0], else
    [365 + (day - offset)]. *)
Definition spec_wrap (day offset : Q) : Q :=
  if Qle_bool 0 (day - offset) then day - offset else 365 + (day - offset).

(** Half-open membership test [start <= day < stop]. *)
Definition spec_in_window (day start stop : Q) : bool :=
  Qle_bool start day && Qlt_bool day stop.

Section spec_terms.

Variable v : Var.
Variables iveg ilanduse : nat.
Variable i : cell.

Definition spec_pl20 : Q := spec_wrap (RicePlantingDay1 v i) 20.
Definition spec_pl10 : Q := spec_wrap (RicePlantingDay1 v i) 10.
Definition spec_ha20 : Q := spec_wrap (RiceHarvestDay1 v i) 20.
Definition spec_ha10 : Q := spec_wrap (RiceHarvestDay1 v i) 10.

Definition spec_evapDemand : Q :=
  Qmax (EWRef v i - (ESAct v iveg i + Ta v iveg i)) 0 * RiceFraction v i * MMtoM3 v i.

Definition spec_saturationTerm : Q :=
  if spec_in_window (CalendarDay v i) spec_pl20 spec_pl10
  then 0.1 * (WS1 v ilanduse i - W1 v iveg i) * RiceFraction v i * MMtoM3 v i * DtDay v
  else 0.

Definition spec_floodingTerm : Q :=
  if spec_in_window (CalendarDay v i) spec_pl10 (RicePlantingDay1 v i)
  then (RiceFlooding v i * RiceFraction v i * MMtoM3 v i * DtDay v) + spec_evapDemand
  else 0.

Definition spec_evaporationTerm : Q :=
  if spec_in_window (CalendarDay v i) (RicePlantingDay1 v i) spec_ha20
  then spec_evapDemand
  else 0.

Definition spec_percolationTerm : Q :=
  if spec_in_window (CalendarDay v i) (RicePlantingDay1 v i) spec_ha20
  then RicePercolation v i * RiceFraction v i * MMtoM3 v i * DtDay v
  else 0.

Definition spec_drainageTerm : Q :=
  if spec_in_window (CalendarDay v i) spec_ha10 (RiceHarvestDay1 v i)
  then 0.1 * (WS1 v ilanduse i - WFC1 v ilanduse i) * RiceFraction v i * MMtoM3 v i * DtDay v
  else 0.

End spec_terms.

(** ** Concrete grids *)

(** A grid on which every map is constant, with the vegetation
    "Rainfed_prescribed" at vegetation index 1 and land-use index 0. *)
Definition uniform_var
    (day planting harvest : Q) (ws1 w1 wfc1 : Q) (ewref esact ta : Q)
    (fraction flooding percolation : Q) (mmtom3 m3tomm dtday : Q)
    (soilfraction : Q) (uz : xfloat) : Var :=
  {| PaddyRiceWaterAbstractionFromSurfaceWaterM3 := in_zero;
     RiceFlooding := Np.scalar flooding;
     RicePercolation := Np.scalar percolation;
     RicePlantingDay1 := Np.scalar planting;
     RiceHarvestDay1 := Np.scalar harvest;
     RicePlantingDay2 := in_zero;
     RiceHarvestDay2 := in_zero;
     get_landuse_and_indexes_from_vegetation_GLOBAL := fun _ => (1%nat, 0%nat, 0%nat);
     WS1 := fun _ => Np.scalar ws1;
     W1 := fun _ => Np.scalar w1;
     WFC1 := fun _ => Np.scalar wfc1;
     ESAct := fun _ => Np.scalar esact;
     Ta := fun _ => Np.scalar ta;
     EWRef := Np.scalar ewref;
     RiceFraction := Np.scalar fraction;
     MMtoM3 := Np.scalar mmtom3;
     M3toMM := Np.scalar m3tomm;
     DtDay := dtday;
     CalendarDay := Np.scalar day;
     SoilFraction := fun _ => Np.scalar soilfraction;
     UZ := fun _ => Np.xscalar uz |}.

Definition world_of (v : Var) : World := {| var := v; loaded := [] |}.

Definition env_of (rice water : bool) : Env :=
  {| options := {| riceIrrigation := rice; wateruse := water |};
     map_file := fun _ => inr in_zero |}.

(** The scenario of the specification: planting on day 100, harvest on day
    200, half of the cell under rice, on calendar day [day]. *)
Definition scenario (day : Q) : Var :=
  uniform_var day 100 200  300 250 200  5 1 1  0.5 10 2  1000 0.001 1  0.5 (finite 10).

(** The same cell with the soil wetter than its saturated capacity
    ([W1 = 350 > WS1 = 300]), on day 85 of the saturation window. *)
Definition oversaturated_day85 : Var :=
  uniform_var 85 100 200  300 350 200  5 1 1  0.5 10 2  1000 0.001 1  0.5 (finite 10).

(** The same cell with a field capacity above the saturated capacity
    ([WFC1 = 350 > WS1 = 300]), on day 195 of the drainage window. *)
Definition inverted_capacity_day195 : Var :=
  uniform_var 195 100 200  300 250 350  5 1 1  0.5 10 2  1000 0.001 1  0.5 (finite 10).

(** Planting on day 20, harvest on day 10. *)
Definition planting20_harvest10 : Var :=
  uniform_var 1 20 10  300 250 200  5 1 1  0.5 10 2  1000 0.001 1  0.5 (finite 10).

(** Planting on day 5, harvest on day 100, on calendar day 362: the
    flooding window runs from [pl_10 = 360] to day 5. *)
Definition planting5_day362 : Var :=
  uniform_var 362 5 100  300 250 200  5 1 1  0.5 10 2  1000 0.001 1  0.5 (finite 10).

(** The scenario on a cell without the vegetation ([SoilFraction = 0]). *)
Definition scenario_no_soil (day : Q) : Var :=
  uniform_var day 100 200  300 250 200  5 1 1  0.5 10 2  1000 0.001 1  0 (finite 10).

(** ** Vocabulary of the properties *)

(** The five gated terms of [dynamic] with the bounds of their windows. *)
Inductive phase : Type :=
| Saturation | Flooding | Evaporation | Percolation | Drainage.

Definition window_start (p : phase) (v : Var) : farray :=
  match p with
  | Saturation => pl_20 v
  | Flooding => pl_10 v
  | Evaporation | Percolation => RicePlantingDay1 v
  | Drainage => ha_10 v
  end.

Definition window_stop (p : phase) (v : Var) : farray :=
  match p with
  | Saturation => pl_10 v
  | Flooding => RicePlantingDay1 v
  | Evaporation | Percolation => ha_20 v
  | Drainage => RiceHarvestDay1 v
  end.

Definition phase_term (p : phase) (v : Var) (iveg ilanduse : nat) : farray :=
  match p with
  | Saturation => RiceSoilSaturationM3 v iveg ilanduse
  | Flooding => RiceFloodingM3 v iveg
  | Evaporation => RiceEvaporationM3 v iveg
  | Percolation => RicePercolationM3 v
  | Drainage => RiceDrainageM3 v ilanduse
  end.

(** The wrap of an integer day as [dynamic] computes it. *)
Definition wrapped_day (day offset : Z) : Z :=
  if (day >=? offset)%Z then (day - offset)%Z else (365 + day - offset)%Z.

(** The amount [dynamic] adds to [UZ] in cell [i] is never a negative
    number. *)
Definition contribution_nonneg (v : Var) (i : cell) : Prop :=
  forall q : Q,
    UZ_increment v (rice_iveg v) (rice_ilanduse v) i = finite q -> 0 <= q.

(** [needle] occurs in [text]. *)
Definition contains (needle text : string) : bool :=
  match String.index 0 needle text with
  | Some _ => true
  | None => false
  end.

(** [n] successive calls of [dynamic]. *)
Fixpoint run_dynamic (n : nat) (e : Env) (w : World) : World :=
  match n with
  | O => w
  | S k => run_dynamic k e (dynamic_world e w)
  end.

(** Two variable objects hold the same values in everything [dynamic] reads:
    the parameter maps of the first rice cycle, the calendar day, the
    soil-moisture, evaporation, fraction and conversion arrays, the indexes of
    the vegetation, and [UZ]. *)
Record same_inputs (v1 v2 : Var) : Prop := {
  same_indexes :
    rice_iveg v1 = rice_iveg v2 /\ rice_ilanduse v1 = rice_ilanduse v2;
  same_RiceFlooding : forall i, RiceFlooding v1 i = RiceFlooding v2 i;
  same_RicePercolation : forall i, RicePercolation v1 i = RicePercolation v2 i;
  same_RicePlantingDay1 : forall i, RicePlantingDay1 v1 i = RicePlantingDay1 v2 i;
  same_RiceHarvestDay1 : forall i, RiceHarvestDay1 v1 i = RiceHarvestDay1 v2 i;
  same_CalendarDay : forall i, CalendarDay v1 i = CalendarDay v2 i;
  same_WS1 : forall i, WS1 v1 (rice_ilanduse v1) i = WS1 v2 (rice_ilanduse v1) i;
  same_W1 : forall i, W1 v1 (rice_iveg v1) i = W1 v2 (rice_iveg v1) i;
  same_WFC1 : forall i, WFC1 v1 (rice_ilanduse v1) i = WFC1 v2 (rice_ilanduse v1) i;
  same_ESAct : forall i, ESAct v1 (rice_iveg v1) i = ESAct v2 (rice_iveg v1) i;
  same_Ta : forall i, Ta v1 (rice_iveg v1) i = Ta v2 (rice_iveg v1) i;
  same_EWRef : forall i, EWRef v1 i = EWRef v2 i;
  same_RiceFraction : forall i, RiceFraction v1 i = RiceFraction v2 i;
  same_SoilFraction :
    forall i, SoilFraction v1 (rice_iveg v1) i = SoilFraction v2 (rice_iveg v1) i;
  same_MMtoM3 : forall i, MMtoM3 v1 i = MMtoM3 v2 i;
  same_M3toMM : forall i, M3toMM v1 i = M3toMM v2 i;
  same_DtDay : DtDay v1 = DtDay v2;
  same_UZ : forall k i, UZ v1 k i = UZ v2 k i
}.

(** A world that agrees with [scenario day] in everything [dynamic] reads and
    differs in the rest: the accumulator left by an earlier step, the maps of
    the second rice cycle and the record of the loaded maps. *)
Definition scenario_later_world (day : Q) : World :=
  {| var :=
       set_RicePlantingDay2 (Np.scalar 120)
         (set_RiceHarvestDay2 (Np.scalar 220)
            (set_PaddyRiceWaterAbstractionFromSurfaceWaterM3 (Np.scalar 6500)
               (scenario day)));
     loaded := ["RiceFlooding"; "RicePercolation"] |}.

(** ** The class attributes and further vocabulary *)

(** [riceirrigation.input_files_keys['riceIrrigation']]: the settings keys
    the class declares as its input maps. *)
Definition input_files_keys_riceIrrigation : list string :=
  ["RiceFlooding"; "RicePercolation"; "RicePlantingDay1";
   "RiceHarvestDay1"; "RicePlantingDay2"; "RiceHarvestDay2"].

(** [riceirrigation.module_name] *)
Definition module_name : string := "RiceIrrigation".

(** Requesting the maps [names] one after the other until one fails: the
    requests made, and the exception of the failing one if any. *)
Fixpoint requested_until_failure (e : Env) (names : list string)
  : list string * option exn :=
  match names with
  | [] => ([], None)
  | name :: rest =>
      match map_file e name with
      | inl x => ([name], Some x)
      | inr _ =>
          let '(requested, failure) := requested_until_failure e rest in
          (name :: requested, failure)
      end
  end.

(** The window test of a phase as [dynamic] writes it,
    [(CalendarDay >= start) & (CalendarDay < stop)]. *)
Definition in_phase (p : phase) (v : Var) : barray :=
  ((CalendarDay v >= window_start p v) & (CalendarDay v < window_stop p v))%np.

(** The ungated demand of a phase, the second argument of its [np.where]. *)
Definition phase_demand (p : phase) (v : Var) (iveg ilanduse : nat) : farray :=
  match p with
  | Saturation => (0.1 * RiceSoilSaturationDemandM3 v iveg ilanduse)%np
  | Flooding => (RiceFloodingDemandM3 v + RiceEvaporationDemandM3 v iveg)%np
  | Evaporation => RiceEvaporationDemandM3 v iveg
  | Percolation => RicePercolationDemandM3 v
  | Drainage => (0.1 * RiceDrainageDemandM3 v ilanduse)%np
  end.

(** Everything of the variable object that is owned by the surrounding
    model: all attributes but the accumulator and the six rice maps. *)
Record same_model_state (v v' : Var) : Prop := {
  keeps_indexes :
    get_landuse_and_indexes_from_vegetation_GLOBAL v'
    = get_landuse_and_indexes_from_vegetation_GLOBAL v;
  keeps_WS1 : WS1 v' = WS1 v;
  keeps_W1 : W1 v' = W1 v;
  keeps_WFC1 : WFC1 v' = WFC1 v;
  keeps_ESAct : ESAct v' = ESAct v;
  keeps_Ta : Ta v' = Ta v;
  keeps_EWRef : EWRef v' = EWRef v;
  keeps_RiceFraction : RiceFraction v' = RiceFraction v;
  keeps_MMtoM3 : MMtoM3 v' = MMtoM3 v;
  keeps_M3toMM : M3toMM v' = M3toMM v;
  keeps_DtDay : DtDay v' = DtDay v;
  keeps_CalendarDay : CalendarDay v' = CalendarDay v;
  keeps_SoilFraction : SoilFraction v' = SoilFraction v
}.

(** The six rice maps of the variable object. *)
Record same_rice_maps (v v' : Var) : Prop := {
  keeps_RiceFlooding : RiceFlooding v' = RiceFlooding v;
  keeps_RicePercolation : RicePercolation v' = RicePercolation v;
  keeps_RicePlantingDay1 : RicePlantingDay1 v' = RicePlantingDay1 v;
  keeps_RiceHarvestDay1 : RiceHarvestDay1 v' = RiceHarvestDay1 v;
  keeps_RicePlantingDay2 : RicePlantingDay2 v' = RicePlantingDay2 v;
  keeps_RiceHarvestDay2 : RiceHarvestDay2 v' = RiceHarvestDay2 v
}.

(** Settings with both options on in which every map is the constant array
    of the length of its key, except [missing], whose loading fails. *)
Definition env_missing (missing : string) : Env :=
  {| options := {| riceIrrigation := true; wateruse := true |};
     map_file := fun name =>
       if String.eqb name missing
       then inl (LisfloodError ("cannot load " ++ name))
       else inr (Np.scalar (inject_Z (Z.of_nat (String.length name)))) |}.

(** The scenario on a cell without rice. *)
Definition scenario_no_rice (day : Q) : Var :=
  uniform_var day 100 200  300 250 200  5 1 1  0 10 2  1000 0.001 1  0.5 (finite 10).

(** The scenario with soil evaporation and transpiration above the reference
    open-water evaporation ([EWRef = 1], [ESAct + Ta = 2]). *)
Definition scenario_low_evaporation (day : Q) : Var :=
  uniform_var day 100 200  300 250 200  1 1 1  0.5 10 2  1000 0.001 1  0.5 (finite 10).

(** A uniform cell with the planting day [planting] and the harvest day
    [harvest], the other values being those of the scenario. *)
Definition season (day planting harvest : Q) : Var :=
  uniform_var day planting harvest  300 250 200  5 1 1  0.5 10 2  1000 0.001 1  0.5
    (finite 10).

(** ** Proof automation *)

Ltac unfold_dynamic_locals :=
  unfold PaddyRiceWaterAbstractionFromSurfaceWaterM3_new, UZ_increment,
    RiceSoilSaturationM3, RiceFloodingM3, RiceEvaporationM3, RicePercolationM3,
    RiceDrainageM3, RiceSoilSaturationDemandM3, RiceFloodingDemandM3,
    RiceEvaporationDemandM3, RicePercolationDemandM3, RiceDrainageDemandM3,
    RiceEva, pl_20, pl_10, ha_20, ha_10,
    Np.where_, Np.logical_and, Np.greater_equal, Np.greater, Np.less,
    Np.divide, Np.maximum, Np.add, Np.sub, Np.mul, Np.scalar, Np.xscalar.

Ltac rewrite_same_inputs H :=
  rewrite ?(same_RiceFlooding _ _ H), ?(same_RicePercolation _ _ H),
    ?(same_RicePlantingDay1 _ _ H), ?(same_RiceHarvestDay1 _ _ H),
    ?(same_CalendarDay _ _ H), ?(same_WS1 _ _ H), ?(same_W1 _ _ H),
    ?(same_WFC1 _ _ H), ?(same_ESAct _ _ H), ?(same_Ta _ _ H),
    ?(same_EWRef _ _ H), ?(same_RiceFraction _ _ H), ?(same_SoilFraction _ _ H),
    ?(same_MMtoM3 _ _ H), ?(same_M3toMM _ _ H), ?(same_DtDay _ _ H).

(** * Properties *)

(** ** Booleans and arrays *)

Lemma Qlt_bool_iff (x y : Q) : Qlt_bool x y = true <-> x < y.
Proof.
  unfold Qlt_bool. rewrite negb_true_iff.
  split; intro H.
  - apply Qnot_le_lt. intro Hle. apply Qle_bool_iff in Hle. congruence.
  - destruct (Qle_bool y x) eqn:E; [|reflexivity].
    apply Qle_bool_iff in E. exfalso. apply (Qlt_not_le _ _ H E).
Qed.

Lemma Qlt_bool_false_iff (x y : Q) : Qlt_bool x y = false <-> y <= x.
Proof.
  unfold Qlt_bool. rewrite negb_false_iff. apply Qle_bool_iff.
Qed.

Lemma Qle_bool_false_iff (x y : Q) : Qle_bool x y = false <-> y < x.
Proof.
  rewrite <- Qlt_bool_iff. unfold Qlt_bool.
  destruct (Qle_bool x y); simpl; intuition congruence.
Qed.

(** The wrap written in [dynamic] ([np.where(d < 0, 365 + d, d)] with
    [d = day - offset]) is the wrap of the specification's contract. *)
Lemma code_wrap_spec (day offset : Q) :
  (if Qlt_bool (day - offset) 0 then 365 + (day - offset) else day - offset)
  = spec_wrap day offset.
Proof.
  unfold spec_wrap, Qlt_bool. destruct (Qle_bool 0 (day - offset)); reflexivity.
Qed.

Lemma pl_20_spec v i : pl_20 v i = spec_pl20 v i.
Proof. apply code_wrap_spec. Qed.

Lemma pl_10_spec v i : pl_10 v i = spec_pl10 v i.
Proof. apply code_wrap_spec. Qed.

Lemma ha_20_spec v i : ha_20 v i = spec_ha20 v i.
Proof. apply code_wrap_spec. Qed.

Lemma ha_10_spec v i : ha_10 v i = spec_ha10 v i.
Proof. apply code_wrap_spec. Qed.

(** A window that is written [(day >= start) & (day < stop)] in [dynamic]. *)
Lemma code_window_spec (day start stop : farray) (i : cell) :
  ((day >= start) & (day < stop))%np i = spec_in_window (day i) (start i) (stop i).
Proof. reflexivity. Qed.

(** An inverted window contains no day. *)
Lemma spec_in_window_inverted (day start stop : Q) :
  stop <= start -> spec_in_window day start stop = false.
Proof.
  intro H. unfold spec_in_window.
  destruct (Qle_bool start day) eqn:E1; [|reflexivity].
  apply Qle_bool_iff in E1. simpl. apply Qlt_bool_false_iff.
  apply Qle_trans with start; assumption.
Qed.

(** ** The phase terms of [dynamic] and of the specification *)

Section terms_agree.

Variable v : Var.
Variables iveg ilanduse : nat.
Variable i : cell.

Lemma RiceEvaporationDemandM3_spec :
  RiceEvaporationDemandM3 v iveg i == spec_evapDemand v iveg i.
Proof. reflexivity. Qed.

Lemma RiceSoilSaturationM3_spec :
  RiceSoilSaturationM3 v iveg ilanduse i == spec_saturationTerm v iveg ilanduse i.
Proof.
  unfold RiceSoilSaturationM3, spec_saturationTerm, Np.where_.
  rewrite code_window_spec, pl_20_spec, pl_10_spec.
  destruct (spec_in_window _ _ _); [|reflexivity].
  unfold RiceSoilSaturationDemandM3, Np.mul, Np.sub, Np.scalar. ring.
Qed.

Lemma RiceFloodingM3_spec :
  RiceFloodingM3 v iveg i == spec_floodingTerm v iveg i.
Proof.
  unfold RiceFloodingM3, spec_floodingTerm, Np.where_.
  rewrite code_window_spec, pl_10_spec.
  destruct (spec_in_window _ _ _); reflexivity.
Qed.

Lemma RiceEvaporationM3_spec :
  RiceEvaporationM3 v iveg i == spec_evaporationTerm v iveg i.
Proof.
  unfold RiceEvaporationM3, spec_evaporationTerm, Np.where_.
  rewrite code_window_spec, ha_20_spec.
  destruct (spec_in_window _ _ _); reflexivity.
Qed.

Lemma RicePercolationM3_spec :
  RicePercolationM3 v i == spec_percolationTerm v i.
Proof.
  unfold RicePercolationM3, spec_percolationTerm, Np.where_.
  rewrite code_window_spec, ha_20_spec.
  destruct (spec_in_window _ _ _); reflexivity.
Qed.

Lemma RiceDrainageM3_spec :
  RiceDrainageM3 v ilanduse i == spec_drainageTerm v ilanduse i.
Proof.
  unfold RiceDrainageM3, spec_drainageTerm, Np.where_.
  rewrite code_window_spec, ha_10_spec.
  destruct (spec_in_window _ _ _); [|reflexivity].
  unfold RiceDrainageDemandM3, Np.mul, Np.sub, Np.scalar. ring.
Qed.

Lemma PaddyRiceWaterAbstractionFromSurfaceWaterM3_new_spec :
  PaddyRiceWaterAbstractionFromSurfaceWaterM3_new v iveg ilanduse i
  == spec_saturationTerm v iveg ilanduse i + spec_floodingTerm v iveg i
     + spec_evaporationTerm v iveg i + spec_percolationTerm v i.
Proof.
  unfold PaddyRiceWaterAbstractionFromSurfaceWaterM3_new, Np.add.
  rewrite RiceSoilSaturationM3_spec, RiceFloodingM3_spec,
    RiceEvaporationM3_spec, RicePercolationM3_spec.
  reflexivity.
Qed.

End terms_agree.

(** ** One step of [dynamic] *)

Lemma dynamic_on (e : Env) (w : World) :
  riceIrrigation (options e) = true ->
  dynamic e w =
  (Return tt,
   {| var :=
        iadd_UZ_row (rice_iveg (var w))
          (UZ_increment (var w) (rice_iveg (var w)) (rice_ilanduse (var w)))
          (set_PaddyRiceWaterAbstractionFromSurfaceWaterM3
             (PaddyRiceWaterAbstractionFromSurfaceWaterM3_new
                (var w) (rice_iveg (var w)) (rice_ilanduse (var w)))
             (var w));
      loaded := loaded w |}).
Proof.
  intro Hon. unfold dynamic, bind, get_option, get_var, rice_iveg, rice_ilanduse.
  rewrite Hon.
  destruct (get_landuse_and_indexes_from_vegetation_GLOBAL (var w) _) as [[iveg ilanduse] x].
  reflexivity.
Qed.

Lemma dynamic_off (e : Env) (w : World) :
  riceIrrigation (options e) = false -> dynamic e w = (Return tt, w).
Proof.
  intro Hoff. unfold dynamic, bind, get_option. rewrite Hoff. reflexivity.
Qed.

(** C1. With [riceIrrigation] enabled, [dynamic] returns normally and, in
    every cell, the new [PaddyRiceWaterAbstractionFromSurfaceWaterM3] is the
    sum of the four phase terms of the specification: saturation on
    [[pl20, pl10)], flooding (with the evaporation demand) on
    [[pl10, plantingDay1)], evaporation and percolation on
    [[plantingDay1, ha20)], each zero outside its window; the drainage term
    is no part of the sum. *)
Theorem C1_abstraction_is_sum_of_four_phase_terms (e : Env) (w : World) (i : cell) :
  riceIrrigation (options e) = true ->
  fst (dynamic e w) = Return tt /\
  PaddyRiceWaterAbstractionFromSurfaceWaterM3 (var (dynamic_world e w)) i
  == spec_saturationTerm (var w) (rice_iveg (var w)) (rice_ilanduse (var w)) i
     + spec_floodingTerm (var w) (rice_iveg (var w)) i
     + spec_evaporationTerm (var w) (rice_iveg (var w)) i
     + spec_percolationTerm (var w) i.
Proof.
  intro Hon. unfold dynamic_world. rewrite (dynamic_on e w Hon). simpl.
  split; [reflexivity|].
  apply PaddyRiceWaterAbstractionFromSurfaceWaterM3_new_spec.
Qed.

Lemma C1_witness :
  riceIrrigation (options (env_of true true)) = true /\
  (fst (dynamic (env_of true true) (world_of (scenario 85))) = Return tt /\
   PaddyRiceWaterAbstractionFromSurfaceWaterM3
     (var (dynamic_world (env_of true true) (world_of (scenario 85)))) 0%nat
   == spec_saturationTerm (scenario 85) 1 0 0%nat
      + spec_floodingTerm (scenario 85) 1 0%nat
      + spec_evaporationTerm (scenario 85) 1 0%nat
      + spec_percolationTerm (scenario 85) 0%nat).
Proof.
  split; [reflexivity|].
  apply (C1_abstraction_is_sum_of_four_phase_terms
           (env_of true true) (world_of (scenario 85)) 0%nat).
  reflexivity.
Defined.

(** ** The update of the upper zone *)

Lemma xeq_refl (x : xfloat) : xeq x x.
Proof. destruct x; simpl; [reflexivity | exact I]. Qed.

Lemma xadd_xeq (x y y' : xfloat) : xeq y y' -> xeq (xadd x y) (xadd x y').
Proof.
  destruct x as [a|], y as [b|], y' as [b'|]; simpl; try tauto.
  intro H. rewrite H. reflexivity.
Qed.

Lemma xadd_zero (x : xfloat) (z : Q) : z == 0 -> xeq (xadd x (finite z)) x.
Proof.
  intro H. destruct x as [a|]; simpl; [|exact I]. rewrite H. ring.
Qed.

Lemma xdiv_nonzero (a b : Q) : ~ b == 0 -> xdiv a b = finite (a / b).
Proof.
  intro H. unfold xdiv. destruct (Qeq_bool b 0) eqn:E; [|reflexivity].
  apply Qeq_bool_iff in E. contradiction.
Qed.

Lemma xdiv_zero (a b : Q) : b == 0 -> xdiv a b = nonfinite.
Proof.
  intro H. unfold xdiv. apply Qeq_bool_iff in H. rewrite H. reflexivity.
Qed.

Section upper_zone.

Variable v : Var.
Variables iveg ilanduse : nat.
Variable i : cell.

Lemma UZ_increment_positive_fraction :
  0 < SoilFraction v iveg i ->
  UZ_increment v iveg ilanduse i
  = finite ((RiceDrainageM3 v ilanduse i + RicePercolationM3 v i) * M3toMM v i
            / SoilFraction v iveg i).
Proof.
  intro Hpos. unfold UZ_increment, Np.where_, Np.greater, Np.scalar.
  assert (Hb : Qlt_bool 0.0 (SoilFraction v iveg i) = true)
    by (apply Qlt_bool_iff; setoid_replace 0.0 with 0 by reflexivity; exact Hpos).
  rewrite Hb. unfold Np.divide. apply xdiv_nonzero.
  intro Hz. rewrite Hz in Hpos. apply (Qlt_irrefl _ Hpos).
Qed.

Lemma UZ_increment_no_fraction :
  SoilFraction v iveg i <= 0 ->
  UZ_increment v iveg ilanduse i = finite 0.0.
Proof.
  intro Hle. unfold UZ_increment, Np.where_, Np.greater, Np.scalar.
  assert (Hb : Qlt_bool 0.0 (SoilFraction v iveg i) = false)
    by (apply Qlt_bool_false_iff; setoid_replace 0.0 with 0 by reflexivity; exact Hle).
  rewrite Hb. reflexivity.
Qed.

(** Without [np.where] the quotient of a cell with no soil fraction is
    not finite. *)
Lemma unguarded_quotient_nonfinite :
  SoilFraction v iveg i == 0 ->
  ((RiceDrainageM3 v ilanduse + RicePercolationM3 v) * M3toMM v
   / SoilFraction v iveg)%np i = nonfinite.
Proof. intro Hz. unfold Np.divide. apply xdiv_zero. exact Hz. Qed.

End upper_zone.

Lemma dynamic_UZ_row (e : Env) (w : World) (i : cell) :
  riceIrrigation (options e) = true ->
  UZ (var (dynamic_world e w)) (rice_iveg (var w)) i
  = xadd (UZ (var w) (rice_iveg (var w)) i)
         (UZ_increment (var w) (rice_iveg (var w)) (rice_ilanduse (var w)) i).
Proof.
  intro Hon. unfold dynamic_world. rewrite (dynamic_on e w Hon). simpl.
  rewrite Nat.eqb_refl. reflexivity.
Qed.

Lemma dynamic_UZ_other_rows (e : Env) (w : World) (k : nat) (i : cell) :
  k <> rice_iveg (var w) ->
  UZ (var (dynamic_world e w)) k i = UZ (var w) k i.
Proof.
  intro Hk. unfold dynamic_world.
  destruct (riceIrrigation (options e)) eqn:Hflag.
  - rewrite (dynamic_on e w Hflag). simpl.
    apply Nat.eqb_neq in Hk. rewrite Hk. reflexivity.
  - rewrite (dynamic_off e w Hflag). reflexivity.
Qed.

(** C2. With [riceIrrigation] enabled, in a cell where
    [SoilFraction[iveg] > 0] the entry of [UZ[iveg]] grows by
    [(drainageTerm + percolationTerm) * M3toMM / SoilFraction[iveg]], the
    drainage term being [0.1*(WS1-WFC1)*RiceFraction*MMtoM3*DtDay] on
    [[ha10, harvestDay1)]; in a cell where [SoilFraction[iveg] = 0] the entry
    keeps its value. *)
Theorem C2_upper_zone_update (e : Env) (w : World) (i : cell) :
  riceIrrigation (options e) = true ->
  (0 < SoilFraction (var w) (rice_iveg (var w)) i ->
   xeq (UZ (var (dynamic_world e w)) (rice_iveg (var w)) i)
       (xadd (UZ (var w) (rice_iveg (var w)) i)
             (finite ((spec_drainageTerm (var w) (rice_ilanduse (var w)) i
                       + spec_percolationTerm (var w) i)
                      * M3toMM (var w) i
                      / SoilFraction (var w) (rice_iveg (var w)) i))))
  /\
  (SoilFraction (var w) (rice_iveg (var w)) i == 0 ->
   xeq (UZ (var (dynamic_world e w)) (rice_iveg (var w)) i)
       (UZ (var w) (rice_iveg (var w)) i)).
Proof.
  intro Hon. rewrite (dynamic_UZ_row e w i Hon). split.
  - intro Hpos. rewrite UZ_increment_positive_fraction by exact Hpos.
    apply xadd_xeq. simpl.
    rewrite RiceDrainageM3_spec, RicePercolationM3_spec. reflexivity.
  - intro Hz. rewrite UZ_increment_no_fraction by (rewrite Hz; apply Qle_refl).
    apply xadd_zero. reflexivity.
Qed.

Lemma C2_witness :
  riceIrrigation (options (env_of true true)) = true /\
  (0 < SoilFraction (scenario 150) 1 0%nat /\
   xeq (UZ (var (dynamic_world (env_of true true) (world_of (scenario 150)))) 1 0%nat)
       (xadd (UZ (scenario 150) 1 0%nat)
             (finite ((spec_drainageTerm (scenario 150) 0 0%nat
                       + spec_percolationTerm (scenario 150) 0%nat)
                      * M3toMM (scenario 150) 0%nat
                      / SoilFraction (scenario 150) 1 0%nat)))) /\
  (SoilFraction (scenario_no_soil 195) 1 0%nat == 0 /\
   xeq (UZ (var (dynamic_world (env_of true true) (world_of (scenario_no_soil 195)))) 1 0%nat)
       (UZ (scenario_no_soil 195) 1 0%nat)).
Proof.
  split; [reflexivity|]. split.
  - split; [reflexivity|].
    apply (proj1 (C2_upper_zone_update
                    (env_of true true) (world_of (scenario 150)) 0%nat eq_refl)).
    reflexivity.
  - split; [reflexivity|].
    apply (proj2 (C2_upper_zone_update
                    (env_of true true) (world_of (scenario_no_soil 195)) 0%nat eq_refl)).
    reflexivity.
Defined.

(** C6. With [riceIrrigation] enabled, in a cell where [SoilFraction[iveg]]
    is zero [dynamic] returns without an exception, the amount selected by
    [np.where] for the cell is the finite value zero although the unguarded
    quotient is not finite, and the entry of [UZ[iveg]] keeps its value: a
    finite entry stays finite. *)
Theorem C6_zero_fraction_contributes_zero (e : Env) (w : World) (i : cell) :
  riceIrrigation (options e) = true ->
  SoilFraction (var w) (rice_iveg (var w)) i == 0 ->
  fst (dynamic e w) = Return tt /\
  xeq (UZ_increment (var w) (rice_iveg (var w)) (rice_ilanduse (var w)) i) (finite 0) /\
  xeq (UZ (var (dynamic_world e w)) (rice_iveg (var w)) i)
      (UZ (var w) (rice_iveg (var w)) i) /\
  (forall u : Q,
      UZ (var w) (rice_iveg (var w)) i = finite u ->
      exists u' : Q,
        UZ (var (dynamic_world e w)) (rice_iveg (var w)) i = finite u' /\ u' == u).
Proof.
  intros Hon Hz.
  assert (Hinc : UZ_increment (var w) (rice_iveg (var w)) (rice_ilanduse (var w)) i
                 = finite 0.0)
    by (apply UZ_increment_no_fraction; rewrite Hz; apply Qle_refl).
  rewrite (dynamic_UZ_row e w i Hon), Hinc.
  repeat split.
  - rewrite (dynamic_on e w Hon). reflexivity.
  - apply xadd_zero. reflexivity.
  - intros u Hu. rewrite Hu. simpl. exists (u + 0.0). split; [reflexivity|].
    setoid_replace 0.0 with 0 by reflexivity. ring.
Qed.

Lemma C6_witness :
  riceIrrigation (options (env_of true true)) = true /\
  SoilFraction (scenario_no_soil 195) 1 0%nat == 0 /\
  fst (dynamic (env_of true true) (world_of (scenario_no_soil 195))) = Return tt /\
  xeq (UZ_increment (scenario_no_soil 195) 1 0 0%nat) (finite 0) /\
  xeq (UZ (var (dynamic_world (env_of true true) (world_of (scenario_no_soil 195)))) 1 0%nat)
      (UZ (scenario_no_soil 195) 1 0%nat) /\
  (forall u : Q,
      UZ (scenario_no_soil 195) 1 0%nat = finite u ->
      exists u' : Q,
        UZ (var (dynamic_world (env_of true true) (world_of (scenario_no_soil 195)))) 1 0%nat
        = finite u' /\ u' == u).
Proof.
  split; [reflexivity|]. split; [reflexivity|].
  apply (C6_zero_fraction_contributes_zero
           (env_of true true) (world_of (scenario_no_soil 195)) 0%nat);
    reflexivity.
Defined.

(** ** Signs *)

Lemma RiceEva_nonneg v iveg i : 0 <= RiceEva v iveg i.
Proof. unfold RiceEva, Np.maximum, Np.scalar. apply Q.le_max_r. Qed.

Section signs.

Variable v : Var.
Variables iveg ilanduse : nat.
Variable i : cell.

Hypothesis RiceFraction_nonneg : 0 <= RiceFraction v i.
Hypothesis MMtoM3_nonneg : 0 <= MMtoM3 v i.
Hypothesis DtDay_nonneg : 0 <= DtDay v.

Lemma RiceEvaporationDemandM3_nonneg : 0 <= RiceEvaporationDemandM3 v iveg i.
Proof.
  unfold RiceEvaporationDemandM3, Np.mul.
  repeat apply Qmult_le_0_compat; try assumption. apply RiceEva_nonneg.
Qed.

Lemma RiceSoilSaturationM3_nonneg :
  W1 v iveg i <= WS1 v ilanduse i -> 0 <= RiceSoilSaturationM3 v iveg ilanduse i.
Proof.
  intro Hcap. unfold RiceSoilSaturationM3, Np.where_.
  destruct (Np.logical_and _ _ i); [|apply Qle_refl].
  unfold RiceSoilSaturationDemandM3, Np.mul, Np.sub, Np.scalar.
  repeat apply Qmult_le_0_compat; try assumption; lra.
Qed.

Lemma RiceFloodingM3_nonneg :
  0 <= RiceFlooding v i -> 0 <= RiceFloodingM3 v iveg i.
Proof.
  intro Hrate. unfold RiceFloodingM3, Np.where_.
  destruct (Np.logical_and _ _ i); [|apply Qle_refl].
  unfold Np.add, RiceFloodingDemandM3, Np.mul, Np.scalar.
  apply (Qplus_le_compat 0 _ 0 _).
  - repeat apply Qmult_le_0_compat; assumption.
  - apply RiceEvaporationDemandM3_nonneg.
Qed.

Lemma RiceEvaporationM3_nonneg : 0 <= RiceEvaporationM3 v iveg i.
Proof.
  unfold RiceEvaporationM3, Np.where_.
  destruct (Np.logical_and _ _ i); [|apply Qle_refl]. apply RiceEvaporationDemandM3_nonneg.
Qed.

Lemma RicePercolationM3_nonneg :
  0 <= RicePercolation v i -> 0 <= RicePercolationM3 v i.
Proof.
  intro Hrate. unfold RicePercolationM3, Np.where_.
  destruct (Np.logical_and _ _ i); [|apply Qle_refl].
  unfold RicePercolationDemandM3, Np.mul, Np.scalar.
  repeat apply Qmult_le_0_compat; assumption.
Qed.

Lemma RiceDrainageM3_nonneg :
  WFC1 v ilanduse i <= WS1 v ilanduse i -> 0 <= RiceDrainageM3 v ilanduse i.
Proof.
  intro Hcap. unfold RiceDrainageM3, Np.where_.
  destruct (Np.logical_and _ _ i); [|apply Qle_refl].
  unfold RiceDrainageDemandM3, Np.mul, Np.sub, Np.scalar.
  repeat apply Qmult_le_0_compat; try assumption; lra.
Qed.

End signs.

(** C5, as the code has it.  With [riceIrrigation] enabled, the new
    [PaddyRiceWaterAbstractionFromSurfaceWaterM3] of a cell is not negative
    provided the soil is not wetter than saturated ([W1 <= WS1]) and the
    flooding rate, the percolation rate, the rice fraction, [MMtoM3] and
    [DtDay] are not negative; only the evaporation residual is floored by the
    code itself. *)
Theorem C5_abstraction_nonneg_for_nonneg_inputs (e : Env) (w : World) (i : cell) :
  riceIrrigation (options e) = true ->
  W1 (var w) (rice_iveg (var w)) i <= WS1 (var w) (rice_ilanduse (var w)) i ->
  0 <= RiceFlooding (var w) i ->
  0 <= RicePercolation (var w) i ->
  0 <= RiceFraction (var w) i ->
  0 <= MMtoM3 (var w) i ->
  0 <= DtDay (var w) ->
  0 <= PaddyRiceWaterAbstractionFromSurfaceWaterM3 (var (dynamic_world e w)) i.
Proof.
  intros Hon Hcap Hflood Hperc Hfrac Hmm Hdt.
  unfold dynamic_world. rewrite (dynamic_on e w Hon). simpl.
  unfold PaddyRiceWaterAbstractionFromSurfaceWaterM3_new, Np.add.
  pose proof (RiceSoilSaturationM3_nonneg (var w) (rice_iveg (var w))
                (rice_ilanduse (var w)) i Hfrac Hmm Hdt Hcap).
  pose proof (RiceFloodingM3_nonneg (var w) (rice_iveg (var w)) i Hfrac Hmm Hdt Hflood).
  pose proof (RiceEvaporationM3_nonneg (var w) (rice_iveg (var w)) i Hfrac Hmm).
  pose proof (RicePercolationM3_nonneg (var w) i Hfrac Hmm Hdt Hperc).
  lra.
Qed.

Lemma C5_witness :
  (riceIrrigation (options (env_of true true)) = true /\
   W1 (scenario 95) 1 0%nat <= WS1 (scenario 95) 0 0%nat /\
   0 <= RiceFlooding (scenario 95) 0%nat /\
   0 <= RicePercolation (scenario 95) 0%nat /\
   0 <= RiceFraction (scenario 95) 0%nat /\
   0 <= MMtoM3 (scenario 95) 0%nat /\
   0 <= DtDay (scenario 95)) /\
  0 <= PaddyRiceWaterAbstractionFromSurfaceWaterM3
         (var (dynamic_world (env_of true true) (world_of (scenario 95)))) 0%nat.
Proof.
  split.
  - repeat split; vm_compute; discriminate.
  - apply (C5_abstraction_nonneg_for_nonneg_inputs
             (env_of true true) (world_of (scenario 95)) 0%nat);
      [reflexivity | vm_compute; discriminate ..].
Defined.

(** C5, as stated, fails: on day 85 of the saturation window a cell whose
    soil holds more water than its saturated capacity ([W1 = 350],
    [WS1 = 300]) gets the abstraction [-2500]. *)
Lemma C5_counterexample :
  riceIrrigation (options (env_of true true)) = true /\
  PaddyRiceWaterAbstractionFromSurfaceWaterM3
    (var (dynamic_world (env_of true true) (world_of oversaturated_day85))) 0%nat
  == -2500 /\
  ~ 0 <= PaddyRiceWaterAbstractionFromSurfaceWaterM3
           (var (dynamic_world (env_of true true) (world_of oversaturated_day85))) 0%nat.
Proof.
  split; [reflexivity|]. split; [reflexivity|].
  apply Qlt_not_le. reflexivity.
Qed.

(** C7, as the code has it.  With [riceIrrigation] enabled, the amount added
    to [UZ[iveg]] in a cell is never negative and the entry is never
    decremented, provided the field capacity does not exceed the saturated
    capacity ([WFC1 <= WS1]) and the percolation rate, the rice fraction,
    [MMtoM3], [M3toMM] and [DtDay] are not negative. *)
Theorem C7_upper_zone_contribution_nonneg (e : Env) (w : World) (i : cell) :
  riceIrrigation (options e) = true ->
  WFC1 (var w) (rice_ilanduse (var w)) i <= WS1 (var w) (rice_ilanduse (var w)) i ->
  0 <= RicePercolation (var w) i ->
  0 <= RiceFraction (var w) i ->
  0 <= MMtoM3 (var w) i ->
  0 <= M3toMM (var w) i ->
  0 <= DtDay (var w) ->
  contribution_nonneg (var w) i /\
  UZ (var (dynamic_world e w)) (rice_iveg (var w)) i
  = xadd (UZ (var w) (rice_iveg (var w)) i)
         (UZ_increment (var w) (rice_iveg (var w)) (rice_ilanduse (var w)) i) /\
  (forall u u' : Q,
      UZ (var w) (rice_iveg (var w)) i = finite u ->
      UZ (var (dynamic_world e w)) (rice_iveg (var w)) i = finite u' ->
      u <= u').
Proof.
  intros Hon Hcap Hperc Hfrac Hmm Hm3 Hdt.
  assert (Hnonneg : contribution_nonneg (var w) i).
  { intros q Hq.
    destruct (Qlt_le_dec 0 (SoilFraction (var w) (rice_iveg (var w)) i)) as [Hpos|Hle].
    - rewrite UZ_increment_positive_fraction in Hq by exact Hpos.
      injection Hq as <-.
      apply Qle_shift_div_l; [exact Hpos|].
      setoid_replace (0 * SoilFraction (var w) (rice_iveg (var w)) i) with 0 by ring.
      apply Qmult_le_0_compat; [|exact Hm3].
      pose proof (RiceDrainageM3_nonneg (var w) (rice_ilanduse (var w)) i
                    Hfrac Hmm Hdt Hcap).
      pose proof (RicePercolationM3_nonneg (var w) i Hfrac Hmm Hdt Hperc).
      lra.
    - rewrite UZ_increment_no_fraction in Hq by exact Hle.
      injection Hq as <-. discriminate. }
  split; [exact Hnonneg|].
  split; [apply (dynamic_UZ_row e w i Hon)|].
  intros u u' Hu Hu'.
  rewrite (dynamic_UZ_row e w i Hon), Hu in Hu'.
  destruct (UZ_increment (var w) (rice_iveg (var w)) (rice_ilanduse (var w)) i)
    as [q|] eqn:Hq; simpl in Hu'; [|discriminate Hu'].
  injection Hu' as <-.
  pose proof (Hnonneg q Hq). lra.
Qed.

Lemma C7_witness :
  (riceIrrigation (options (env_of true true)) = true /\
   WFC1 (scenario 195) 0 0%nat <= WS1 (scenario 195) 0 0%nat /\
   0 <= RicePercolation (scenario 195) 0%nat /\
   0 <= RiceFraction (scenario 195) 0%nat /\
   0 <= MMtoM3 (scenario 195) 0%nat /\
   0 <= M3toMM (scenario 195) 0%nat /\
   0 <= DtDay (scenario 195)) /\
  contribution_nonneg (scenario 195) 0%nat /\
  UZ (var (dynamic_world (env_of true true) (world_of (scenario 195)))) 1 0%nat
  = xadd (UZ (scenario 195) 1 0%nat) (UZ_increment (scenario 195) 1 0 0%nat) /\
  (forall u u' : Q,
      UZ (scenario 195) 1 0%nat = finite u ->
      UZ (var (dynamic_world (env_of true true) (world_of (scenario 195)))) 1 0%nat
      = finite u' ->
      u <= u').
Proof.
  split.
  - repeat split; vm_compute; discriminate.
  - apply (C7_upper_zone_contribution_nonneg
             (env_of true true) (world_of (scenario 195)) 0%nat);
      [reflexivity | vm_compute; discriminate ..].
Defined.

(** C7, as stated, fails: on day 195 of the drainage window a cell whose
    field capacity exceeds its saturated capacity ([WFC1 = 350],
    [WS1 = 300]) is given the negative amount [-5], and its entry of
    [UZ[iveg]] is lowered from 10 to 5. *)
Lemma C7_counterexample :
  riceIrrigation (options (env_of true true)) = true /\
  UZ inverted_capacity_day195 1 0%nat = finite 10 /\
  xeq (UZ_increment inverted_capacity_day195 1 0 0%nat) (finite (-5)) /\
  xeq (UZ (var (dynamic_world (env_of true true) (world_of inverted_capacity_day195)))
          1 0%nat)
      (finite 5) /\
  ~ contribution_nonneg inverted_capacity_day195 0%nat.
Proof.
  split; [reflexivity|]. split; [reflexivity|]. split; [reflexivity|].
  split; [reflexivity|].
  intro H. pose proof (H _ eq_refl) as Hneg. revert Hneg.
  apply Qlt_not_le. reflexivity.
Qed.

(** ** The wrapped calendar markers *)

Lemma wrapped_day_range (day offset : Z) :
  (1 <= day <= 365)%Z -> (offset = 10 \/ offset = 20)%Z ->
  (0 <= wrapped_day day offset <= 364)%Z.
Proof.
  intros Hday Hoff. unfold wrapped_day.
  destruct (day >=? offset)%Z eqn:E.
  - apply Z.geb_le in E. lia.
  - rewrite Z.geb_leb in E. apply Z.leb_gt in E. lia.
Qed.

Lemma inject_Z_minus (x y : Z) : inject_Z (x - y) = inject_Z x - inject_Z y.
Proof. unfold Z.sub. rewrite inject_Z_plus, inject_Z_opp. reflexivity. Qed.

Lemma spec_wrap_integer_day (P : Q) (day offset : Z) :
  P == inject_Z day ->
  spec_wrap P (inject_Z offset) == inject_Z (wrapped_day day offset).
Proof.
  intro HP. unfold spec_wrap, wrapped_day.
  destruct (Qle_bool 0 (P - inject_Z offset)) eqn:E.
  - apply Qle_bool_iff in E. rewrite HP in E.
    assert (Hle : inject_Z offset <= inject_Z day) by lra.
    rewrite <- Zle_Qle in Hle. apply Z.geb_le in Hle. rewrite Hle.
    rewrite HP, inject_Z_minus. reflexivity.
  - apply Qle_bool_false_iff in E. rewrite HP in E.
    assert (Hlt : inject_Z day < inject_Z offset) by lra.
    rewrite <- Zlt_Qlt in Hlt.
    assert (Hb : (day >=? offset)%Z = false)
      by (rewrite Z.geb_leb; apply Z.leb_gt; exact Hlt).
    rewrite Hb, HP, inject_Z_minus, inject_Z_plus.
    change (inject_Z 365) with 365. ring.
Qed.

Lemma inject_Z_range (z lo hi : Z) :
  (lo <= z <= hi)%Z -> inject_Z lo <= inject_Z z <= inject_Z hi.
Proof. intros [H1 H2]. split; rewrite <- Zle_Qle; assumption. Qed.

(** C4, as the code has it.  For integer planting and harvest days in
    [[1,365]], each of the markers [pl_20], [pl_10], [ha_20], [ha_10] lies in
    [[0,364]] and equals [day - offset] when [day >= offset] and
    [365 + day - offset] otherwise. *)
Theorem C4_day_wrap_markers (v : Var) (i : cell) (planting harvest : Z) :
  RicePlantingDay1 v i == inject_Z planting ->
  RiceHarvestDay1 v i == inject_Z harvest ->
  (1 <= planting <= 365)%Z ->
  (1 <= harvest <= 365)%Z ->
  (pl_20 v i == inject_Z (wrapped_day planting 20) /\ 0 <= pl_20 v i <= 364) /\
  (pl_10 v i == inject_Z (wrapped_day planting 10) /\ 0 <= pl_10 v i <= 364) /\
  (ha_20 v i == inject_Z (wrapped_day harvest 20) /\ 0 <= ha_20 v i <= 364) /\
  (ha_10 v i == inject_Z (wrapped_day harvest 10) /\ 0 <= ha_10 v i <= 364).
Proof.
  intros Hp Hh Rp Rh.
  rewrite pl_20_spec, pl_10_spec, ha_20_spec, ha_10_spec.
  unfold spec_pl20, spec_pl10, spec_ha20, spec_ha10.
  pose proof (spec_wrap_integer_day _ planting 20 Hp) as E1.
  pose proof (spec_wrap_integer_day _ planting 10 Hp) as E2.
  pose proof (spec_wrap_integer_day _ harvest 20 Hh) as E3.
  pose proof (spec_wrap_integer_day _ harvest 10 Hh) as E4.
  change (inject_Z 20) with 20 in *. change (inject_Z 10) with 10 in *.
  repeat split; try assumption.
  all: first [ rewrite E1 | rewrite E2 | rewrite E3 | rewrite E4 ].
  all: first [ apply (inject_Z_range _ 0 364) | idtac ].
  all: apply wrapped_day_range; auto.
Qed.

Lemma C4_witness :
  (RicePlantingDay1 (scenario 85) 0%nat == inject_Z 100 /\
   RiceHarvestDay1 (scenario 85) 0%nat == inject_Z 200 /\
   (1 <= 100 <= 365)%Z /\ (1 <= 200 <= 365)%Z) /\
  (pl_20 (scenario 85) 0%nat == inject_Z (wrapped_day 100 20)
   /\ 0 <= pl_20 (scenario 85) 0%nat <= 364) /\
  (pl_10 (scenario 85) 0%nat == inject_Z (wrapped_day 100 10)
   /\ 0 <= pl_10 (scenario 85) 0%nat <= 364) /\
  (ha_20 (scenario 85) 0%nat == inject_Z (wrapped_day 200 20)
   /\ 0 <= ha_20 (scenario 85) 0%nat <= 364) /\
  (ha_10 (scenario 85) 0%nat == inject_Z (wrapped_day 200 10)
   /\ 0 <= ha_10 (scenario 85) 0%nat <= 364).
Proof.
  split.
  - repeat split; try reflexivity; lia.
  - apply (C4_day_wrap_markers (scenario 85) 0%nat 100 200);
      [reflexivity | reflexivity | lia | lia].
Defined.

(** C4, as stated, fails where the day equals the offset: with planting on
    day 20 the marker [pl_20] is 0, which is neither in [[1,365]] nor
    [365 + 20 - 20]; likewise [ha_10] with harvest on day 10. *)
Lemma C4_counterexample :
  (RicePlantingDay1 planting20_harvest10 0%nat == 20 /\
   pl_20 planting20_harvest10 0%nat == 0 /\
   ~ (1 <= pl_20 planting20_harvest10 0%nat <= 365) /\
   ~ pl_20 planting20_harvest10 0%nat == 365 + 20 - 20) /\
  (RiceHarvestDay1 planting20_harvest10 0%nat == 10 /\
   ha_10 planting20_harvest10 0%nat == 0 /\
   ~ (1 <= ha_10 planting20_harvest10 0%nat <= 365) /\
   ~ ha_10 planting20_harvest10 0%nat == 365 + 10 - 10).
Proof.
  split; (split; [reflexivity|]); (split; [reflexivity|]); split.
  - intros [H _]. revert H. apply Qlt_not_le. reflexivity.
  - intro H. vm_compute in H. discriminate H.
  - intros [H _]. revert H. apply Qlt_not_le. reflexivity.
  - intro H. vm_compute in H. discriminate H.
Qed.

(** ** Inverted windows *)

Lemma where_window_inverted (day start stop a : farray) (i : cell) :
  stop i <= start i ->
  ((day >= start) & (day < stop))%np i = false /\
  Np.where_ ((day >= start) & (day < stop))%np a in_zero i = 0.
Proof.
  intro H. unfold Np.where_. rewrite code_window_spec.
  rewrite (spec_in_window_inverted _ _ _ H). split; reflexivity.
Qed.

(** C8. In a cell where the bounds of a phase window satisfy
    [start >= end], the test [(day >= start) & (day < end)] of [dynamic] is
    false for every calendar day, and the term of that phase is zero. *)
Theorem C8_inverted_window_is_empty
    (p : phase) (v : Var) (iveg ilanduse : nat) (i : cell) :
  window_start p v i >= window_stop p v i ->
  (forall day : farray,
      ((day >= window_start p v) & (day < window_stop p v))%np i = false) /\
  phase_term p v iveg ilanduse i = 0.
Proof.
  intro H. split.
  - intro day. apply (where_window_inverted day _ _ in_zero i H).
  - destruct p; simpl in *;
      apply (where_window_inverted (CalendarDay v) _ _ _ i H).
Qed.

Lemma C8_witness :
  window_start Flooding planting5_day362 0%nat
  >= window_stop Flooding planting5_day362 0%nat /\
  (forall day : farray,
      ((day >= window_start Flooding planting5_day362)
       & (day < window_stop Flooding planting5_day362))%np 0%nat = false) /\
  phase_term Flooding planting5_day362 1 0 0%nat = 0.
Proof.
  split.
  - vm_compute. discriminate.
  - apply (C8_inverted_window_is_empty Flooding planting5_day362 1 0 0%nat).
    vm_compute. discriminate.
Defined.

(** ** Initialisation *)

(** C3. With [riceIrrigation] enabled and [wateruse] disabled, [initial]
    raises a [LisfloodError] whose message names both options; no map has been
    requested from [loadmap] at that point, and the only change to the
    variable object is the zeroed accumulator. *)
Theorem C3_rice_without_wateruse_raises (e : Env) (w : World) :
  riceIrrigation (options e) = true ->
  wateruse (options e) = false ->
  exists msg : string,
    initial e w
    = (Raise (LisfloodError msg),
       {| var := set_PaddyRiceWaterAbstractionFromSurfaceWaterM3 in_zero (var w);
          loaded := loaded w |}) /\
    contains "riceIrrigation" msg = true /\
    contains "wateruse" msg = true.
Proof.
  intros Hrice Hwater.
  exists "riceIrrigation module ON MUST HAVE wateruse option ON in setting file".
  split; [|split; reflexivity].
  unfold initial, bind, modify_var, get_option, raise. simpl.
  rewrite Hrice, Hwater. reflexivity.
Qed.

Lemma C3_witness :
  (riceIrrigation (options (env_of true false)) = true /\
   wateruse (options (env_of true false)) = false) /\
  exists msg : string,
    initial (env_of true false) (world_of (scenario 85))
    = (Raise (LisfloodError msg),
       {| var := set_PaddyRiceWaterAbstractionFromSurfaceWaterM3 in_zero (scenario 85);
          loaded := [] |}) /\
    contains "riceIrrigation" msg = true /\
    contains "wateruse" msg = true.
Proof.
  split; [split; reflexivity|].
  apply (C3_rice_without_wateruse_raises (env_of true false) (world_of (scenario 85)));
    reflexivity.
Defined.

Lemma initial_off (e : Env) (w : World) :
  riceIrrigation (options e) = false ->
  initial e w
  = (Return tt,
     {| var := set_PaddyRiceWaterAbstractionFromSurfaceWaterM3 in_zero (var w);
        loaded := loaded w |}).
Proof.
  intro Hoff. unfold initial, bind, modify_var, get_option. simpl.
  rewrite Hoff. reflexivity.
Qed.

Lemma run_dynamic_off (n : nat) (e : Env) (w : World) :
  riceIrrigation (options e) = false -> run_dynamic n e w = w.
Proof.
  intro Hoff. revert w. induction n as [|n IH]; intro w; simpl.
  - reflexivity.
  - unfold dynamic_world. rewrite (dynamic_off e w Hoff). apply IH.
Qed.

(** C9. With [riceIrrigation] disabled, [initial] requests no map, zeroes the
    accumulator and changes nothing else; every call of [dynamic], in
    whatever world, returns and leaves the whole world as it is, so that after
    any number of steps the accumulator is zero in every cell and [UZ] is the
    initial one. *)
Theorem C9_feature_off_is_inert (e : Env) (w : World) (n : nat) :
  riceIrrigation (options e) = false ->
  initial e w
  = (Return tt,
     {| var := set_PaddyRiceWaterAbstractionFromSurfaceWaterM3 in_zero (var w);
        loaded := loaded w |}) /\
  (forall w' : World, dynamic e w' = (Return tt, w')) /\
  (forall i : cell,
      PaddyRiceWaterAbstractionFromSurfaceWaterM3
        (var (run_dynamic n e (snd (initial e w)))) i = 0) /\
  UZ (var (run_dynamic n e (snd (initial e w)))) = UZ (var w) /\
  loaded (run_dynamic n e (snd (initial e w))) = loaded w.
Proof.
  intro Hoff.
  split; [apply (initial_off e w Hoff)|].
  split; [intro w'; apply (dynamic_off e w' Hoff)|].
  rewrite (run_dynamic_off n e _ Hoff), (initial_off e w Hoff). simpl.
  repeat split.
Qed.

Lemma C9_witness :
  riceIrrigation (options (env_of false false)) = false /\
  initial (env_of false false) (world_of (scenario 150))
  = (Return tt,
     {| var := set_PaddyRiceWaterAbstractionFromSurfaceWaterM3 in_zero (scenario 150);
        loaded := [] |}) /\
  (forall w' : World, dynamic (env_of false false) w' = (Return tt, w')) /\
  (forall i : cell,
      PaddyRiceWaterAbstractionFromSurfaceWaterM3
        (var (run_dynamic 3 (env_of false false)
                (snd (initial (env_of false false) (world_of (scenario 150)))))) i = 0) /\
  UZ (var (run_dynamic 3 (env_of false false)
             (snd (initial (env_of false false) (world_of (scenario 150))))))
  = UZ (scenario 150) /\
  loaded (run_dynamic 3 (env_of false false)
            (snd (initial (env_of false false) (world_of (scenario 150))))) = [].
Proof.
  split; [reflexivity|].
  apply (C9_feature_off_is_inert (env_of false false) (world_of (scenario 150)) 3).
  reflexivity.
Defined.

(** With both options on, the six maps are requested in the order of the
    source. *)
Example initial_on_requests_six_maps :
  fst (initial (env_of true true) (world_of (scenario 85))) = Return tt /\
  loaded (snd (initial (env_of true true) (world_of (scenario 85))))
  = ["RiceFlooding"; "RicePercolation"; "RicePlantingDay1"; "RiceHarvestDay1";
     "RicePlantingDay2"; "RiceHarvestDay2"].
Proof. split; reflexivity. Qed.

(** ** Determinism *)

Section same_inputs_same_locals.

Variables v1 v2 : Var.
Hypothesis Hsame : same_inputs v1 v2.

Lemma same_inputs_abstraction (i : cell) :
  PaddyRiceWaterAbstractionFromSurfaceWaterM3_new v1 (rice_iveg v1) (rice_ilanduse v1) i
  = PaddyRiceWaterAbstractionFromSurfaceWaterM3_new v2 (rice_iveg v2) (rice_ilanduse v2) i.
Proof.
  destruct (same_indexes _ _ Hsame) as [Hv Hl]. rewrite <- Hv, <- Hl.
  unfold_dynamic_locals. rewrite_same_inputs Hsame. reflexivity.
Qed.

Lemma same_inputs_UZ_increment (i : cell) :
  UZ_increment v1 (rice_iveg v1) (rice_ilanduse v1) i
  = UZ_increment v2 (rice_iveg v2) (rice_ilanduse v2) i.
Proof.
  destruct (same_indexes _ _ Hsame) as [Hv Hl]. rewrite <- Hv, <- Hl.
  unfold_dynamic_locals. rewrite_same_inputs Hsame. reflexivity.
Qed.

End same_inputs_same_locals.

(** C10. Two calls of [dynamic] under the same [riceIrrigation] switch, from
    worlds that hold the same values in everything [dynamic] reads (and, when
    the switch is off, the same accumulator), end with the same outcome, the
    same [PaddyRiceWaterAbstractionFromSurfaceWaterM3] in every cell and the
    same [UZ] in every row and cell. *)
Theorem C10_dynamic_deterministic (e1 e2 : Env) (w1 w2 : World) :
  riceIrrigation (options e1) = riceIrrigation (options e2) ->
  same_inputs (var w1) (var w2) ->
  (riceIrrigation (options e1) = false ->
   forall i : cell,
     PaddyRiceWaterAbstractionFromSurfaceWaterM3 (var w1) i
     = PaddyRiceWaterAbstractionFromSurfaceWaterM3 (var w2) i) ->
  fst (dynamic e1 w1) = fst (dynamic e2 w2) /\
  (forall i : cell,
      PaddyRiceWaterAbstractionFromSurfaceWaterM3 (var (dynamic_world e1 w1)) i
      = PaddyRiceWaterAbstractionFromSurfaceWaterM3 (var (dynamic_world e2 w2)) i) /\
  (forall (k : nat) (i : cell),
      UZ (var (dynamic_world e1 w1)) k i = UZ (var (dynamic_world e2 w2)) k i).
Proof.
  intros Hflag Hsame Hacc. unfold dynamic_world.
  destruct (riceIrrigation (options e1)) eqn:H1; symmetry in Hflag.
  - rewrite (dynamic_on e1 w1 H1), (dynamic_on e2 w2 Hflag). simpl.
    split; [reflexivity|]. split.
    + intro i. apply same_inputs_abstraction. exact Hsame.
    + intros k i. destruct (same_indexes _ _ Hsame) as [Hv _]. rewrite <- Hv.
      destruct (Nat.eqb k (rice_iveg (var w1))).
      * unfold Np.iadd. rewrite (same_UZ _ _ Hsame).
        rewrite (same_inputs_UZ_increment _ _ Hsame). rewrite <- Hv. reflexivity.
      * apply (same_UZ _ _ Hsame).
  - rewrite (dynamic_off e1 w1 H1), (dynamic_off e2 w2 Hflag). simpl.
    split; [reflexivity|]. split.
    + apply Hacc. reflexivity.
    + apply (same_UZ _ _ Hsame).
Qed.

Lemma C10_witness :
  (riceIrrigation (options (env_of true true))
   = riceIrrigation (options (env_of true false)) /\
   same_inputs (scenario 150) (var (scenario_later_world 150))) /\
  fst (dynamic (env_of true true) (world_of (scenario 150)))
  = fst (dynamic (env_of true false) (scenario_later_world 150)) /\
  (forall i : cell,
      PaddyRiceWaterAbstractionFromSurfaceWaterM3
        (var (dynamic_world (env_of true true) (world_of (scenario 150)))) i
      = PaddyRiceWaterAbstractionFromSurfaceWaterM3
          (var (dynamic_world (env_of true false) (scenario_later_world 150))) i) /\
  (forall (k : nat) (i : cell),
      UZ (var (dynamic_world (env_of true true) (world_of (scenario 150)))) k i
      = UZ (var (dynamic_world (env_of true false) (scenario_later_world 150))) k i).
Proof.
  assert (Hsame : same_inputs (scenario 150) (var (scenario_later_world 150)))
    by (constructor; intros; try split; reflexivity).
  split; [split; [reflexivity | exact Hsame]|].
  apply (C10_dynamic_deterministic
           (env_of true true) (env_of true false)
           (world_of (scenario 150)) (scenario_later_world 150)).
  - reflexivity.
  - exact Hsame.
  - simpl. discriminate.
Defined.

(** * Further properties of [initial] *)

Ltac run_initial :=
  unfold initial, bind, modify_var, get_option, loadmap, raise, ret; simpl.

Ltac split_on_maps e :=
  repeat match goal with
         | |- context [map_file e ?name] => destruct (map_file e name); simpl
         end.

(** X1. With both options on, [initial] requests the maps in the order of
    the class attribute [input_files_keys], stops at the first one that fails
    to load and raises the loader's exception; it returns normally when all
    six load. *)
Theorem initial_requests_declared_keys_in_order (e : Env) (w : World) :
  riceIrrigation (options e) = true ->
  wateruse (options e) = true ->
  loaded (snd (initial e w))
  = (loaded w ++ fst (requested_until_failure e input_files_keys_riceIrrigation))%list /\
  fst (initial e w)
  = match snd (requested_until_failure e input_files_keys_riceIrrigation) with
    | None => Return tt
    | Some x => Raise x
    end.
Proof.
  intros Hrice Hwater. run_initial. rewrite Hrice, Hwater. simpl.
  split_on_maps e; rewrite <- ?app_assoc; split; reflexivity.
Qed.

Lemma initial_requests_declared_keys_in_order_witness :
  (riceIrrigation (options (env_missing "RicePlantingDay1")) = true /\
   wateruse (options (env_missing "RicePlantingDay1")) = true) /\
  loaded (snd (initial (env_missing "RicePlantingDay1") (world_of (scenario 85))))
  = (loaded (world_of (scenario 85))
     ++ fst (requested_until_failure (env_missing "RicePlantingDay1")
               input_files_keys_riceIrrigation))%list /\
  fst (initial (env_missing "RicePlantingDay1") (world_of (scenario 85)))
  = match snd (requested_until_failure (env_missing "RicePlantingDay1")
                 input_files_keys_riceIrrigation) with
    | None => Return tt
    | Some x => Raise x
    end.
Proof.
  split; [split; reflexivity|].
  apply (initial_requests_declared_keys_in_order
           (env_missing "RicePlantingDay1") (world_of (scenario 85)));
    reflexivity.
Defined.

(** X2. When [initial] returns normally with [riceIrrigation] on, [wateruse]
    is on and each of the six rice attributes holds the map bound to the
    settings key of its own name. *)
Theorem initial_success_binds_each_map_to_its_key (e : Env) (w : World) :
  riceIrrigation (options e) = true ->
  fst (initial e w) = Return tt ->
  wateruse (options e) = true /\
  map_file e "RiceFlooding" = inr (RiceFlooding (var (snd (initial e w)))) /\
  map_file e "RicePercolation" = inr (RicePercolation (var (snd (initial e w)))) /\
  map_file e "RicePlantingDay1" = inr (RicePlantingDay1 (var (snd (initial e w)))) /\
  map_file e "RiceHarvestDay1" = inr (RiceHarvestDay1 (var (snd (initial e w)))) /\
  map_file e "RicePlantingDay2" = inr (RicePlantingDay2 (var (snd (initial e w)))) /\
  map_file e "RiceHarvestDay2" = inr (RiceHarvestDay2 (var (snd (initial e w)))).
Proof.
  intro Hrice. run_initial. rewrite Hrice.
  destruct (wateruse (options e)); simpl; [|discriminate].
  destruct (map_file e "RiceFlooding") as [x1|a1]; simpl; [discriminate|].
  destruct (map_file e "RicePercolation") as [x2|a2]; simpl; [discriminate|].
  destruct (map_file e "RicePlantingDay1") as [x3|a3]; simpl; [discriminate|].
  destruct (map_file e "RiceHarvestDay1") as [x4|a4]; simpl; [discriminate|].
  destruct (map_file e "RicePlantingDay2") as [x5|a5]; simpl; [discriminate|].
  destruct (map_file e "RiceHarvestDay2") as [x6|a6]; simpl; [discriminate|].
  intros _. repeat split.
Qed.

Lemma initial_success_binds_each_map_to_its_key_witness :
  (riceIrrigation (options (env_missing "")) = true /\
   fst (initial (env_missing "") (world_of (scenario 85))) = Return tt) /\
  wateruse (options (env_missing "")) = true /\
  map_file (env_missing "") "RiceFlooding"
  = inr (RiceFlooding (var (snd (initial (env_missing "") (world_of (scenario 85)))))) /\
  map_file (env_missing "") "RicePercolation"
  = inr (RicePercolation (var (snd (initial (env_missing "") (world_of (scenario 85)))))) /\
  map_file (env_missing "") "RicePlantingDay1"
  = inr (RicePlantingDay1 (var (snd (initial (env_missing "") (world_of (scenario 85)))))) /\
  map_file (env_missing "") "RiceHarvestDay1"
  = inr (RiceHarvestDay1 (var (snd (initial (env_missing "") (world_of (scenario 85)))))) /\
  map_file (env_missing "") "RicePlantingDay2"
  = inr (RicePlantingDay2 (var (snd (initial (env_missing "") (world_of (scenario 85)))))) /\
  map_file (env_missing "") "RiceHarvestDay2"
  = inr (RiceHarvestDay2 (var (snd (initial (env_missing "") (world_of (scenario 85)))))).
Proof.
  split; [split; reflexivity|].
  apply (initial_success_binds_each_map_to_its_key
           (env_missing "") (world_of (scenario 85)));
    reflexivity.
Defined.

(** X3. Whatever the options and whether it returns or raises, [initial]
    leaves the accumulator at zero in every cell and changes neither [UZ] nor
    any attribute owned by the surrounding model. *)
Theorem initial_zeroes_accumulator_and_keeps_model_state (e : Env) (w : World) :
  (forall i : cell,
      PaddyRiceWaterAbstractionFromSurfaceWaterM3 (var (snd (initial e w))) i = 0) /\
  UZ (var (snd (initial e w))) = UZ (var w) /\
  same_model_state (var w) (var (snd (initial e w))).
Proof.
  run_initial.
  destruct (riceIrrigation (options e)); simpl;
    [destruct (wateruse (options e)); simpl|];
    split_on_maps e; (split; [reflexivity|]); split; try reflexivity;
    constructor; reflexivity.
Qed.

(** * Further properties of [dynamic] *)

(** ** What a step writes *)

(** X4. Whatever the options, [dynamic] requests no map and writes nothing
    but the accumulator and one row of [UZ]: it changes no attribute owned by
    the surrounding model, none of the six rice maps and no row of [UZ] other
    than the row of the vegetation "Rainfed_prescribed". *)
Theorem dynamic_writes_only_accumulator_and_one_UZ_row (e : Env) (w : World) :
  loaded (dynamic_world e w) = loaded w /\
  same_model_state (var w) (var (dynamic_world e w)) /\
  same_rice_maps (var w) (var (dynamic_world e w)) /\
  (forall (k : nat) (i : cell),
      k <> rice_iveg (var w) ->
      UZ (var (dynamic_world e w)) k i = UZ (var w) k i).
Proof.
  split; [|split; [|split]].
  - unfold dynamic_world.
    destruct (riceIrrigation (options e)) eqn:Hflag.
    + rewrite (dynamic_on e w Hflag). reflexivity.
    + rewrite (dynamic_off e w Hflag). reflexivity.
  - unfold dynamic_world.
    destruct (riceIrrigation (options e)) eqn:Hflag.
    + rewrite (dynamic_on e w Hflag). constructor; reflexivity.
    + rewrite (dynamic_off e w Hflag). constructor; reflexivity.
  - unfold dynamic_world.
    destruct (riceIrrigation (options e)) eqn:Hflag.
    + rewrite (dynamic_on e w Hflag). constructor; reflexivity.
    + rewrite (dynamic_off e w Hflag). constructor; reflexivity.
  - intros k i Hk. apply dynamic_UZ_other_rows. exact Hk.
Qed.

(** The arrays [dynamic] computes do not depend on what it writes. *)
Lemma dynamic_locals_after_step (e : Env) (w : World) :
  riceIrrigation (options e) = true ->
  rice_iveg (var (dynamic_world e w)) = rice_iveg (var w) /\
  rice_ilanduse (var (dynamic_world e w)) = rice_ilanduse (var w) /\
  PaddyRiceWaterAbstractionFromSurfaceWaterM3_new (var (dynamic_world e w))
  = PaddyRiceWaterAbstractionFromSurfaceWaterM3_new (var w) /\
  UZ_increment (var (dynamic_world e w)) = UZ_increment (var w).
Proof.
  intro Hon. unfold dynamic_world. rewrite (dynamic_on e w Hon).
  repeat split.
Qed.

Lemma dynamic_accumulator (e : Env) (w : World) (i : cell) :
  riceIrrigation (options e) = true ->
  PaddyRiceWaterAbstractionFromSurfaceWaterM3 (var (dynamic_world e w)) i
  = PaddyRiceWaterAbstractionFromSurfaceWaterM3_new
      (var w) (rice_iveg (var w)) (rice_ilanduse (var w)) i.
Proof.
  intro Hon. unfold dynamic_world. rewrite (dynamic_on e w Hon). reflexivity.
Qed.

(** X5. With [riceIrrigation] on, repeating the step while the surrounding
    model leaves its inputs alone recomputes the same accumulator each time
    (the step reads neither the accumulator nor [UZ]) and adds the same
    increment to [UZ[iveg]] at every step. *)
Theorem repeated_dynamic_accumulates_in_UZ_only
    (e : Env) (w : World) (n : nat) (i : cell) :
  riceIrrigation (options e) = true ->
  PaddyRiceWaterAbstractionFromSurfaceWaterM3 (var (run_dynamic (S n) e w)) i
  = PaddyRiceWaterAbstractionFromSurfaceWaterM3 (var (dynamic_world e w)) i /\
  UZ (var (run_dynamic n e w)) (rice_iveg (var w)) i
  = Nat.iter n
      (fun u => xadd u (UZ_increment (var w) (rice_iveg (var w))
                          (rice_ilanduse (var w)) i))
      (UZ (var w) (rice_iveg (var w)) i).
Proof.
  intro Hon. revert w. induction n as [|n IH]; intro w.
  - split; reflexivity.
  - destruct (IH (dynamic_world e w)) as [IHacc IHuz].
    destruct (dynamic_locals_after_step e w Hon) as (Hv & Hl & Hacc & Hinc).
    split.
    + change (run_dynamic (S (S n)) e w)
        with (run_dynamic (S n) e (dynamic_world e w)).
      rewrite IHacc.
      rewrite !(dynamic_accumulator e _ i Hon). rewrite Hv, Hl, Hacc. reflexivity.
    + change (run_dynamic (S n) e w) with (run_dynamic n e (dynamic_world e w)).
      rewrite Hv, Hl, Hinc in IHuz. rewrite IHuz.
      rewrite (dynamic_UZ_row e w i Hon). rewrite Nat.iter_succ_r. reflexivity.
Qed.

Lemma repeated_dynamic_accumulates_in_UZ_only_witness :
  riceIrrigation (options (env_of true true)) = true /\
  PaddyRiceWaterAbstractionFromSurfaceWaterM3
    (var (run_dynamic 3 (env_of true true) (world_of (scenario 150)))) 0%nat
  = PaddyRiceWaterAbstractionFromSurfaceWaterM3
      (var (dynamic_world (env_of true true) (world_of (scenario 150)))) 0%nat /\
  UZ (var (run_dynamic 2 (env_of true true) (world_of (scenario 150)))) 1 0%nat
  = Nat.iter 2
      (fun u => xadd u (UZ_increment (scenario 150) 1 0 0%nat))
      (UZ (scenario 150) 1 0%nat).
Proof.
  split; [reflexivity|].
  apply (repeated_dynamic_accumulates_in_UZ_only
           (env_of true true) (world_of (scenario 150)) 2 0%nat).
  reflexivity.
Defined.

(** ** The calendar of the phases *)

Lemma spec_wrap_no_wrap (day offset : Q) :
  offset <= day -> spec_wrap day offset = day - offset.
Proof.
  intro H. unfold spec_wrap.
  assert (Hb : Qle_bool 0 (day - offset) = true) by (apply Qle_bool_iff; lra).
  rewrite Hb. reflexivity.
Qed.

Lemma spec_wrap_wraps (day offset : Q) :
  day < offset -> spec_wrap day offset = 365 + (day - offset).
Proof.
  intro H. unfold spec_wrap.
  assert (Hb : Qle_bool 0 (day - offset) = false) by (apply Qle_bool_false_iff; lra).
  rewrite Hb. reflexivity.
Qed.

Lemma spec_in_window_iff (day start stop : Q) :
  spec_in_window day start stop = true <-> start <= day < stop.
Proof.
  unfold spec_in_window. rewrite andb_true_iff, Qle_bool_iff, Qlt_bool_iff.
  reflexivity.
Qed.

Lemma spec_in_window_outside (day start stop : Q) :
  day < start \/ stop <= day -> spec_in_window day start stop = false.
Proof.
  intro H. destruct (spec_in_window day start stop) eqn:E; [|reflexivity].
  apply spec_in_window_iff in E. exfalso. destruct H; lra.
Qed.

Lemma in_phase_spec (p : phase) (v : Var) (i : cell) :
  in_phase p v i
  = spec_in_window (CalendarDay v i) (window_start p v i) (window_stop p v i).
Proof. reflexivity. Qed.

Lemma phase_term_gated (p : phase) (v : Var) (iveg ilanduse : nat) (i : cell) :
  phase_term p v iveg ilanduse i
  = if in_phase p v i then phase_demand p v iveg ilanduse i else 0.
Proof. destruct p; reflexivity. Qed.

Lemma abstraction_by_phases (v : Var) (iveg ilanduse : nat) (i : cell) :
  PaddyRiceWaterAbstractionFromSurfaceWaterM3_new v iveg ilanduse i
  = phase_term Saturation v iveg ilanduse i + phase_term Flooding v iveg ilanduse i
    + phase_term Evaporation v iveg ilanduse i
    + phase_term Percolation v iveg ilanduse i.
Proof. reflexivity. Qed.

(** Two windows that share a bound, [[a, b)] and [[b, c)], hold no common
    day. *)
Lemma consecutive_windows_disjoint (day a b c : Q) :
  spec_in_window day a b && spec_in_window day b c = false.
Proof.
  destruct (spec_in_window day a b) eqn:E1; [|reflexivity].
  apply spec_in_window_iff in E1. simpl.
  apply spec_in_window_outside. left. lra.
Qed.

(** X7. Whatever the planting and harvest days, no calendar day lies both
    in the saturation and in the flooding window, nor both in the flooding
    and in the growth window: each pair shares a bound ([pl_10], the
    planting day). *)
Theorem consecutive_phases_never_overlap (v : Var) (i : cell) :
  in_phase Saturation v i && in_phase Flooding v i = false /\
  in_phase Flooding v i && in_phase Evaporation v i = false /\
  in_phase Flooding v i && in_phase Percolation v i = false.
Proof.
  rewrite !in_phase_spec. simpl.
  repeat split; apply consecutive_windows_disjoint.
Qed.

Section no_wrap_season.

Variable v : Var.
Variable i : cell.

Lemma markers_no_wrap_planting :
  20 <= RicePlantingDay1 v i ->
  pl_20 v i = RicePlantingDay1 v i - 20 /\ pl_10 v i = RicePlantingDay1 v i - 10.
Proof.
  intro H. rewrite pl_20_spec, pl_10_spec. unfold spec_pl20, spec_pl10.
  split; apply spec_wrap_no_wrap; lra.
Qed.

Lemma markers_no_wrap_harvest :
  20 <= RiceHarvestDay1 v i ->
  ha_20 v i = RiceHarvestDay1 v i - 20 /\ ha_10 v i = RiceHarvestDay1 v i - 10.
Proof.
  intro H. rewrite ha_20_spec, ha_10_spec. unfold spec_ha20, spec_ha10.
  split; apply spec_wrap_no_wrap; lra.
Qed.

End no_wrap_season.

(** X8. In a cell whose planting day is at least 10, whose harvest day is
    at least 20 and whose planting precedes the harvest by 10 days or more,
    the saturation, flooding, growth and drainage windows are pairwise
    disjoint: on any calendar day at most one of them is open. *)
Theorem phases_pairwise_disjoint_in_season (v : Var) (i : cell) :
  10 <= RicePlantingDay1 v i ->
  20 <= RiceHarvestDay1 v i ->
  RicePlantingDay1 v i <= RiceHarvestDay1 v i - 10 ->
  in_phase Saturation v i && in_phase Flooding v i = false /\
  in_phase Saturation v i && in_phase Evaporation v i = false /\
  in_phase Saturation v i && in_phase Drainage v i = false /\
  in_phase Flooding v i && in_phase Evaporation v i = false /\
  in_phase Flooding v i && in_phase Drainage v i = false /\
  in_phase Evaporation v i && in_phase Drainage v i = false.
Proof.
  intros Hp Hh Hph.
  destruct (markers_no_wrap_harvest v i Hh) as [Hha20 Hha10].
  assert (Hpl10 : pl_10 v i = RicePlantingDay1 v i - 10)
    by (rewrite pl_10_spec; apply spec_wrap_no_wrap; exact Hp).
  rewrite !in_phase_spec. simpl. rewrite Hha20, Hha10, Hpl10.
  repeat split;
    match goal with
    | |- spec_in_window ?d ?a ?b && spec_in_window ?d ?a' ?b' = false =>
        destruct (spec_in_window d a b) eqn:E1; [|reflexivity];
        apply spec_in_window_iff in E1; simpl;
        apply spec_in_window_outside; lra
    end.
Qed.

Lemma phases_pairwise_disjoint_in_season_witness :
  (10 <= RicePlantingDay1 (scenario 95) 0%nat /\
   20 <= RiceHarvestDay1 (scenario 95) 0%nat /\
   RicePlantingDay1 (scenario 95) 0%nat <= RiceHarvestDay1 (scenario 95) 0%nat - 10) /\
  in_phase Saturation (scenario 95) 0%nat && in_phase Flooding (scenario 95) 0%nat = false /\
  in_phase Saturation (scenario 95) 0%nat && in_phase Evaporation (scenario 95) 0%nat = false /\
  in_phase Saturation (scenario 95) 0%nat && in_phase Drainage (scenario 95) 0%nat = false /\
  in_phase Flooding (scenario 95) 0%nat && in_phase Evaporation (scenario 95) 0%nat = false /\
  in_phase Flooding (scenario 95) 0%nat && in_phase Drainage (scenario 95) 0%nat = false /\
  in_phase Evaporation (scenario 95) 0%nat && in_phase Drainage (scenario 95) 0%nat = false.
Proof.
  split.
  - repeat split; vm_compute; discriminate.
  - apply (phases_pairwise_disjoint_in_season (scenario 95) 0%nat);
      vm_compute; discriminate.
Defined.

(** X9. Near the start of the year a wrapped marker lies after the end of
    its window, and the phase never happens, whatever the calendar day: no
    flooding when the planting day is below 10, no saturation when it is in
    [[10, 20)], no drainage when the harvest day is below 10. *)
Theorem phases_lost_at_year_start (v : Var) (iveg ilanduse : nat) (i : cell) :
  (RicePlantingDay1 v i < 10 -> RiceFloodingM3 v iveg i = 0) /\
  (10 <= RicePlantingDay1 v i < 20 -> RiceSoilSaturationM3 v iveg ilanduse i = 0) /\
  (RiceHarvestDay1 v i < 10 -> RiceDrainageM3 v ilanduse i = 0).
Proof.
  repeat split.
  - intro H. apply where_window_inverted.
    rewrite pl_10_spec. unfold spec_pl10. rewrite spec_wrap_wraps by exact H. lra.
  - intros [H1 H2]. apply where_window_inverted.
    rewrite pl_20_spec, pl_10_spec. unfold spec_pl20, spec_pl10.
    rewrite (spec_wrap_wraps _ 20) by exact H2.
    rewrite (spec_wrap_no_wrap _ 10) by exact H1. lra.
  - intro H. apply where_window_inverted.
    rewrite ha_10_spec. unfold spec_ha10. rewrite spec_wrap_wraps by exact H. lra.
Qed.

Lemma phases_lost_at_year_start_witness :
  (RicePlantingDay1 (season 362 5 100) 0%nat < 10 /\
   RiceFloodingM3 (season 362 5 100) 1 0%nat = 0) /\
  (10 <= RicePlantingDay1 (season 3 15 100) 0%nat < 20 /\
   RiceSoilSaturationM3 (season 3 15 100) 1 0 0%nat = 0) /\
  (RiceHarvestDay1 (season 2 200 5) 0%nat < 10 /\
   RiceDrainageM3 (season 2 200 5) 0 0%nat = 0).
Proof.
  split; [|split].
  - split; [reflexivity|].
    apply (proj1 (phases_lost_at_year_start (season 362 5 100) 1 0 0%nat)).
    reflexivity.
  - split; [split; [vm_compute; discriminate | reflexivity]|].
    apply (proj1 (proj2 (phases_lost_at_year_start (season 3 15 100) 1 0 0%nat))).
    split; [vm_compute; discriminate | reflexivity].
  - split; [reflexivity|].
    apply (proj2 (proj2 (phases_lost_at_year_start (season 2 200 5) 1 0 0%nat))).
    reflexivity.
Defined.

(** ** Cells without rice, the evaporation floor and the volume returned *)

Section no_rice.

Variable v : Var.
Variables iveg ilanduse : nat.
Variable i : cell.

Hypothesis no_rice : RiceFraction v i == 0.

Lemma phase_demand_no_rice (p : phase) : phase_demand p v iveg ilanduse i == 0.
Proof.
  destruct p; simpl;
    unfold Np.add, Np.mul, RiceSoilSaturationDemandM3, RiceFloodingDemandM3,
      RiceEvaporationDemandM3, RicePercolationDemandM3, RiceDrainageDemandM3,
      Np.mul, Np.sub, Np.scalar;
    rewrite no_rice; ring.
Qed.

Lemma phase_term_no_rice (p : phase) : phase_term p v iveg ilanduse i == 0.
Proof.
  rewrite phase_term_gated. destruct (in_phase p v i); [|reflexivity].
  apply phase_demand_no_rice.
Qed.

End no_rice.

(** X10. With [riceIrrigation] on, a cell without rice ([RiceFraction = 0])
    gets a zero abstraction and an unchanged [UZ[iveg]], on every calendar
    day and whatever its soil fraction. *)
Theorem no_rice_no_abstraction_no_recharge (e : Env) (w : World) (i : cell) :
  riceIrrigation (options e) = true ->
  RiceFraction (var w) i == 0 ->
  PaddyRiceWaterAbstractionFromSurfaceWaterM3 (var (dynamic_world e w)) i == 0 /\
  xeq (UZ (var (dynamic_world e w)) (rice_iveg (var w)) i)
      (UZ (var w) (rice_iveg (var w)) i).
Proof.
  intros Hon Hno. split.
  - rewrite (dynamic_accumulator e w i Hon), abstraction_by_phases.
    rewrite !phase_term_no_rice by exact Hno. reflexivity.
  - rewrite (dynamic_UZ_row e w i Hon).
    pose proof (phase_term_no_rice (var w) (rice_iveg (var w))
                  (rice_ilanduse (var w)) i Hno Drainage) as Hd.
    pose proof (phase_term_no_rice (var w) (rice_iveg (var w))
                  (rice_ilanduse (var w)) i Hno Percolation) as Hp.
    simpl in Hd, Hp.
    destruct (Qlt_le_dec 0 (SoilFraction (var w) (rice_iveg (var w)) i))
      as [Hpos|Hle].
    + rewrite UZ_increment_positive_fraction by exact Hpos.
      apply xadd_zero. unfold Np.add.
      rewrite Hd, Hp. unfold Qdiv. ring.
    + rewrite UZ_increment_no_fraction by exact Hle.
      apply xadd_zero. reflexivity.
Qed.

Lemma no_rice_no_abstraction_no_recharge_witness :
  (riceIrrigation (options (env_of true true)) = true /\
   RiceFraction (scenario_no_rice 150) 0%nat == 0) /\
  PaddyRiceWaterAbstractionFromSurfaceWaterM3
    (var (dynamic_world (env_of true true) (world_of (scenario_no_rice 150)))) 0%nat
  == 0 /\
  xeq (UZ (var (dynamic_world (env_of true true) (world_of (scenario_no_rice 150))))
          1 0%nat)
      (UZ (scenario_no_rice 150) 1 0%nat).
Proof.
  split; [split; reflexivity|].
  apply (no_rice_no_abstraction_no_recharge
           (env_of true true) (world_of (scenario_no_rice 150)) 0%nat);
    reflexivity.
Defined.

(** X11. With [riceIrrigation] on, in a cell where soil evaporation plus
    transpiration reach the reference open-water evaporation
    ([EWRef <= ESAct + Ta]) the abstraction holds no evaporation demand: it
    is the saturation term, plus the bare flooding demand in the flooding
    window, plus the percolation term. *)
Theorem floored_evaporation_adds_nothing (e : Env) (w : World) (i : cell) :
  riceIrrigation (options e) = true ->
  EWRef (var w) i <= ESAct (var w) (rice_iveg (var w)) i + Ta (var w) (rice_iveg (var w)) i ->
  PaddyRiceWaterAbstractionFromSurfaceWaterM3 (var (dynamic_world e w)) i
  == RiceSoilSaturationM3 (var w) (rice_iveg (var w)) (rice_ilanduse (var w)) i
     + (if in_phase Flooding (var w) i then RiceFloodingDemandM3 (var w) i else 0)
     + RicePercolationM3 (var w) i.
Proof.
  intros Hon Hle.
  assert (Hev : RiceEvaporationDemandM3 (var w) (rice_iveg (var w)) i == 0).
  { unfold RiceEvaporationDemandM3, RiceEva, Np.mul, Np.maximum, Np.sub, Np.add,
      Np.scalar.
    rewrite Q.max_r by lra. ring. }
  rewrite (dynamic_accumulator e w i Hon), abstraction_by_phases.
  rewrite (phase_term_gated Flooding), (phase_term_gated Evaporation). simpl.
  unfold Np.add at 1.
  destruct (in_phase Flooding (var w) i), (in_phase Evaporation (var w) i);
    rewrite ?Hev; ring.
Qed.

Lemma floored_evaporation_adds_nothing_witness :
  (riceIrrigation (options (env_of true true)) = true /\
   EWRef (scenario_low_evaporation 95) 0%nat
   <= ESAct (scenario_low_evaporation 95) 1 0%nat
      + Ta (scenario_low_evaporation 95) 1 0%nat) /\
  PaddyRiceWaterAbstractionFromSurfaceWaterM3
    (var (dynamic_world (env_of true true) (world_of (scenario_low_evaporation 95))))
    0%nat
  == RiceSoilSaturationM3 (scenario_low_evaporation 95) 1 0 0%nat
     + (if in_phase Flooding (scenario_low_evaporation 95) 0%nat
        then RiceFloodingDemandM3 (scenario_low_evaporation 95) 0%nat else 0)
     + RicePercolationM3 (scenario_low_evaporation 95) 0%nat.
Proof.
  split; [split; [reflexivity | vm_compute; discriminate]|].
  apply (floored_evaporation_adds_nothing
           (env_of true true) (world_of (scenario_low_evaporation 95)) 0%nat);
    [reflexivity | vm_compute; discriminate].
Defined.



(** ** The schedule of a season that does not cross the year boundary *)

Ltac phase_closed :=
  apply spec_in_window_outside; first [left; lra | right; lra].

Ltac phase_open := apply spec_in_window_iff; lra.

Section season_schedule.

Variable v : Var.
Variables iveg ilanduse : nat.
Variable i : cell.

Hypothesis planting_no_wrap : 20 <= RicePlantingDay1 v i.
Hypothesis harvest_after_growth : RicePlantingDay1 v i <= RiceHarvestDay1 v i - 20.

(** The windows in terms of the planting and the harvest day. *)
Lemma season_in_phase (p : phase) :
  in_phase p v i
  = spec_in_window (CalendarDay v i)
      (match p with
       | Saturation => RicePlantingDay1 v i - 20
       | Flooding => RicePlantingDay1 v i - 10
       | Evaporation | Percolation => RicePlantingDay1 v i
       | Drainage => RiceHarvestDay1 v i - 10
       end)
      (match p with
       | Saturation => RicePlantingDay1 v i - 10
       | Flooding => RicePlantingDay1 v i
       | Evaporation | Percolation => RiceHarvestDay1 v i - 20
       | Drainage => RiceHarvestDay1 v i
       end).
Proof.
  destruct (markers_no_wrap_planting v i planting_no_wrap) as [Hpl20 Hpl10].
  assert (Hh : 20 <= RiceHarvestDay1 v i) by lra.
  destruct (markers_no_wrap_harvest v i Hh) as [Hha20 Hha10].
  rewrite in_phase_spec.
  destruct p; simpl; rewrite ?Hpl20, ?Hpl10, ?Hha20, ?Hha10; reflexivity.
Qed.

Lemma season_idle (p : phase) :
  CalendarDay v i < RicePlantingDay1 v i - 20
  \/ RiceHarvestDay1 v i - 20 <= CalendarDay v i < RiceHarvestDay1 v i - 10
  \/ RiceHarvestDay1 v i <= CalendarDay v i ->
  in_phase p v i = false.
Proof.
  intro Hidle. rewrite season_in_phase.
  destruct Hidle as [H|[H|H]]; destruct p; phase_closed.
Qed.

Lemma season_saturation_days (p : phase) :
  RicePlantingDay1 v i - 20 <= CalendarDay v i < RicePlantingDay1 v i - 10 ->
  in_phase p v i = match p with Saturation => true | _ => false end.
Proof.
  intro H. rewrite season_in_phase. destruct p; [phase_open | phase_closed ..].
Qed.

Lemma season_flooding_days (p : phase) :
  RicePlantingDay1 v i - 10 <= CalendarDay v i < RicePlantingDay1 v i ->
  in_phase p v i = match p with Flooding => true | _ => false end.
Proof.
  intro H. rewrite season_in_phase.
  destruct p; [phase_closed | phase_open | phase_closed ..].
Qed.

Lemma season_growth_days (p : phase) :
  RicePlantingDay1 v i <= CalendarDay v i < RiceHarvestDay1 v i - 20 ->
  in_phase p v i = match p with Evaporation | Percolation => true | _ => false end.
Proof.
  intro H. rewrite season_in_phase.
  destruct p; [phase_closed | phase_closed | phase_open | phase_open | phase_closed].
Qed.

Lemma season_drainage_days (p : phase) :
  RiceHarvestDay1 v i - 10 <= CalendarDay v i < RiceHarvestDay1 v i ->
  in_phase p v i = match p with Drainage => true | _ => false end.
Proof.
  intro H. rewrite season_in_phase.
  destruct p; [phase_closed .. | phase_open].
Qed.

End season_schedule.

(** The recharge of the upper zone in terms of the two terms it adds. *)
Lemma recharge_of_terms (v : Var) (iveg ilanduse : nat) (i : cell) (u : xfloat) (volume : Q) :
  RiceDrainageM3 v ilanduse i + RicePercolationM3 v i == volume ->
  xeq (xadd u (UZ_increment v iveg ilanduse i))
      (if Qlt_bool 0 (SoilFraction v iveg i)
       then xadd u (finite (volume * M3toMM v i / SoilFraction v iveg i))
       else u).
Proof.
  intro Hvol.
  destruct (Qlt_bool 0 (SoilFraction v iveg i)) eqn:E.
  - apply Qlt_bool_iff in E.
    rewrite UZ_increment_positive_fraction by exact E.
    apply xadd_xeq. simpl. unfold Np.add. rewrite Hvol. reflexivity.
  - apply Qlt_bool_false_iff in E.
    rewrite UZ_increment_no_fraction by exact E. apply xadd_zero. reflexivity.
Qed.

Lemma recharge_of_nothing (v : Var) (iveg ilanduse : nat) (i : cell) (u : xfloat) :
  RiceDrainageM3 v ilanduse i + RicePercolationM3 v i == 0 ->
  xeq (xadd u (UZ_increment v iveg ilanduse i)) u.
Proof.
  intro Hvol.
  destruct (Qlt_le_dec 0 (SoilFraction v iveg i)) as [Hpos|Hle].
  - rewrite UZ_increment_positive_fraction by exact Hpos.
    apply xadd_zero. unfold Np.add. rewrite Hvol. unfold Qdiv. ring.
  - rewrite UZ_increment_no_fraction by exact Hle. apply xadd_zero. reflexivity.
Qed.

(** X13. With [riceIrrigation] on, in a cell with planting day at least 20
    and harvest at least 20 days after planting, the step abstracts nothing
    and leaves [UZ[iveg]] unchanged on the idle days: before [planting - 20],
    during the dry-down [[harvest - 20, harvest - 10)] of phase 4, and from
    the harvest day on. *)
Theorem idle_days_abstract_and_recharge_nothing (e : Env) (w : World) (i : cell) :
  riceIrrigation (options e) = true ->
  20 <= RicePlantingDay1 (var w) i ->
  RicePlantingDay1 (var w) i <= RiceHarvestDay1 (var w) i - 20 ->
  CalendarDay (var w) i < RicePlantingDay1 (var w) i - 20
  \/ RiceHarvestDay1 (var w) i - 20 <= CalendarDay (var w) i
                                   < RiceHarvestDay1 (var w) i - 10
  \/ RiceHarvestDay1 (var w) i <= CalendarDay (var w) i ->
  PaddyRiceWaterAbstractionFromSurfaceWaterM3 (var (dynamic_world e w)) i == 0 /\
  xeq (UZ (var (dynamic_world e w)) (rice_iveg (var w)) i)
      (UZ (var w) (rice_iveg (var w)) i).
Proof.
  intros Hon Hp Hh Hidle.
  assert (Hclosed : forall p, in_phase p (var w) i = false)
    by (intro p; apply season_idle; assumption).
  split.
  - rewrite (dynamic_accumulator e w i Hon), abstraction_by_phases.
    rewrite !phase_term_gated, !Hclosed. reflexivity.
  - rewrite (dynamic_UZ_row e w i Hon). apply recharge_of_nothing.
    change (RiceDrainageM3 (var w) (rice_ilanduse (var w)) i)
      with (phase_term Drainage (var w) (rice_iveg (var w)) (rice_ilanduse (var w)) i).
    change (RicePercolationM3 (var w) i)
      with (phase_term Percolation (var w) (rice_iveg (var w)) (rice_ilanduse (var w)) i).
    rewrite !phase_term_gated, !Hclosed. reflexivity.
Qed.

Lemma idle_days_abstract_and_recharge_nothing_witness :
  (riceIrrigation (options (env_of true true)) = true /\
   20 <= RicePlantingDay1 (scenario 185) 0%nat /\
   RicePlantingDay1 (scenario 185) 0%nat <= RiceHarvestDay1 (scenario 185) 0%nat - 20 /\
   (CalendarDay (scenario 185) 0%nat < RicePlantingDay1 (scenario 185) 0%nat - 20
    \/ RiceHarvestDay1 (scenario 185) 0%nat - 20 <= CalendarDay (scenario 185) 0%nat
                                            < RiceHarvestDay1 (scenario 185) 0%nat - 10
    \/ RiceHarvestDay1 (scenario 185) 0%nat <= CalendarDay (scenario 185) 0%nat)) /\
  PaddyRiceWaterAbstractionFromSurfaceWaterM3
    (var (dynamic_world (env_of true true) (world_of (scenario 185)))) 0%nat == 0 /\
  xeq (UZ (var (dynamic_world (env_of true true) (world_of (scenario 185)))) 1 0%nat)
      (UZ (scenario 185) 1 0%nat).
Proof.
  assert (Hidle :
            CalendarDay (scenario 185) 0%nat < RicePlantingDay1 (scenario 185) 0%nat - 20
            \/ RiceHarvestDay1 (scenario 185) 0%nat - 20 <= CalendarDay (scenario 185) 0%nat
                                                    < RiceHarvestDay1 (scenario 185) 0%nat - 10
            \/ RiceHarvestDay1 (scenario 185) 0%nat <= CalendarDay (scenario 185) 0%nat)
    by (right; left; split; [vm_compute; discriminate | reflexivity]).
  split.
  - split; [reflexivity|]. split; [vm_compute; discriminate|].
    split; [vm_compute; discriminate | exact Hidle].
  - apply (idle_days_abstract_and_recharge_nothing
             (env_of true true) (world_of (scenario 185)) 0%nat);
      [reflexivity | vm_compute; discriminate | vm_compute; discriminate | exact Hidle].
Defined.

(** X14. With [riceIrrigation] on, in a cell with planting day at least 20
    and harvest at least 20 days after planting, exactly one demand is
    abstracted on each active day: a tenth of the saturation demand on
    [[planting - 20, planting - 10)], the flooding plus the evaporation
    demand on [[planting - 10, planting)], the evaporation plus the
    percolation demand on [[planting, harvest - 20)], and nothing on the
    drainage days [[harvest - 10, harvest)]. *)
Theorem season_abstraction_schedule (e : Env) (w : World) (i : cell) :
  riceIrrigation (options e) = true ->
  20 <= RicePlantingDay1 (var w) i ->
  RicePlantingDay1 (var w) i <= RiceHarvestDay1 (var w) i - 20 ->
  (RicePlantingDay1 (var w) i - 20 <= CalendarDay (var w) i
                                   < RicePlantingDay1 (var w) i - 10 ->
   PaddyRiceWaterAbstractionFromSurfaceWaterM3 (var (dynamic_world e w)) i
   == 0.1 * RiceSoilSaturationDemandM3
              (var w) (rice_iveg (var w)) (rice_ilanduse (var w)) i) /\
  (RicePlantingDay1 (var w) i - 10 <= CalendarDay (var w) i
                                   < RicePlantingDay1 (var w) i ->
   PaddyRiceWaterAbstractionFromSurfaceWaterM3 (var (dynamic_world e w)) i
   == RiceFloodingDemandM3 (var w) i
      + RiceEvaporationDemandM3 (var w) (rice_iveg (var w)) i) /\
  (RicePlantingDay1 (var w) i <= CalendarDay (var w) i
                              < RiceHarvestDay1 (var w) i - 20 ->
   PaddyRiceWaterAbstractionFromSurfaceWaterM3 (var (dynamic_world e w)) i
   == RiceEvaporationDemandM3 (var w) (rice_iveg (var w)) i
      + RicePercolationDemandM3 (var w) i) /\
  (RiceHarvestDay1 (var w) i - 10 <= CalendarDay (var w) i
                                  < RiceHarvestDay1 (var w) i ->
   PaddyRiceWaterAbstractionFromSurfaceWaterM3 (var (dynamic_world e w)) i == 0).
Proof.
  intros Hon Hp Hh.
  rewrite (dynamic_accumulator e w i Hon), abstraction_by_phases.
  rewrite !phase_term_gated.
  repeat split; intro Hday.
  - rewrite !(season_saturation_days (var w) i Hp Hh _ Hday). simpl.
    unfold Np.mul, Np.scalar. ring.
  - rewrite !(season_flooding_days (var w) i Hp Hh _ Hday). simpl.
    unfold Np.add. ring.
  - rewrite !(season_growth_days (var w) i Hp Hh _ Hday). simpl. ring.
  - rewrite !(season_drainage_days (var w) i Hp Hh _ Hday). simpl. ring.
Qed.

Lemma season_abstraction_schedule_witness :
  (riceIrrigation (options (env_of true true)) = true /\
   20 <= RicePlantingDay1 (scenario 95) 0%nat /\
   RicePlantingDay1 (scenario 95) 0%nat <= RiceHarvestDay1 (scenario 95) 0%nat - 20 /\
   RicePlantingDay1 (scenario 95) 0%nat - 10 <= CalendarDay (scenario 95) 0%nat
                                           < RicePlantingDay1 (scenario 95) 0%nat) /\
  PaddyRiceWaterAbstractionFromSurfaceWaterM3
    (var (dynamic_world (env_of true true) (world_of (scenario 95)))) 0%nat
  == RiceFloodingDemandM3 (scenario 95) 0%nat
     + RiceEvaporationDemandM3 (scenario 95) 1 0%nat.
Proof.
  split.
  - split; [reflexivity|]. split; [vm_compute; discriminate|].
    split; [vm_compute; discriminate|].
    split; [vm_compute; discriminate | reflexivity].
  - refine (proj1 (proj2 (season_abstraction_schedule
                            (env_of true true) (world_of (scenario 95)) 0%nat
                            eq_refl _ _)) _).
    + vm_compute; discriminate.
    + vm_compute; discriminate.
    + split; [vm_compute; discriminate | reflexivity].
Defined.

(** X15. With [riceIrrigation] on, in a cell with planting day at least 20,
    harvest at least 20 days after planting and a positive
    [SoilFraction[iveg]], [UZ[iveg]] is unchanged on the saturation and
    flooding days, grows by the percolation demand on the growth days and by
    a tenth of the drainage demand on the drainage days, each as a depth
    [volume * M3toMM / SoilFraction[iveg]]. *)
Theorem season_recharge_schedule (e : Env) (w : World) (i : cell) :
  riceIrrigation (options e) = true ->
  20 <= RicePlantingDay1 (var w) i ->
  RicePlantingDay1 (var w) i <= RiceHarvestDay1 (var w) i - 20 ->
  0 < SoilFraction (var w) (rice_iveg (var w)) i ->
  (RicePlantingDay1 (var w) i - 20 <= CalendarDay (var w) i
                                   < RicePlantingDay1 (var w) i ->
   xeq (UZ (var (dynamic_world e w)) (rice_iveg (var w)) i)
       (UZ (var w) (rice_iveg (var w)) i)) /\
  (RicePlantingDay1 (var w) i <= CalendarDay (var w) i
                              < RiceHarvestDay1 (var w) i - 20 ->
   xeq (UZ (var (dynamic_world e w)) (rice_iveg (var w)) i)
       (xadd (UZ (var w) (rice_iveg (var w)) i)
             (finite (RicePercolationDemandM3 (var w) i * M3toMM (var w) i
                      / SoilFraction (var w) (rice_iveg (var w)) i)))) /\
  (RiceHarvestDay1 (var w) i - 10 <= CalendarDay (var w) i
                                  < RiceHarvestDay1 (var w) i ->
   xeq (UZ (var (dynamic_world e w)) (rice_iveg (var w)) i)
       (xadd (UZ (var w) (rice_iveg (var w)) i)
             (finite (0.1 * RiceDrainageDemandM3 (var w) (rice_ilanduse (var w)) i
                      * M3toMM (var w) i
                      / SoilFraction (var w) (rice_iveg (var w)) i)))).
Proof.
  intros Hon Hp Hh Hpos.
  rewrite (dynamic_UZ_row e w i Hon).
  assert (Hterms :
            forall volume : Q,
              phase_term Drainage (var w) (rice_iveg (var w)) (rice_ilanduse (var w)) i
              + phase_term Percolation (var w) (rice_iveg (var w))
                  (rice_ilanduse (var w)) i == volume ->
              xeq (xadd (UZ (var w) (rice_iveg (var w)) i)
                        (UZ_increment (var w) (rice_iveg (var w))
                           (rice_ilanduse (var w)) i))
                  (xadd (UZ (var w) (rice_iveg (var w)) i)
                        (finite (volume * M3toMM (var w) i
                                 / SoilFraction (var w) (rice_iveg (var w)) i)))).
  { intros volume Hvol.
    pose proof (recharge_of_terms (var w) (rice_iveg (var w)) (rice_ilanduse (var w)) i
                  (UZ (var w) (rice_iveg (var w)) i) volume Hvol) as Hre.
    apply Qlt_bool_iff in Hpos. rewrite Hpos in Hre. exact Hre. }
  repeat split; intro Hday.
  - apply recharge_of_nothing.
    change (RiceDrainageM3 (var w) (rice_ilanduse (var w)) i)
      with (phase_term Drainage (var w) (rice_iveg (var w)) (rice_ilanduse (var w)) i).
    change (RicePercolationM3 (var w) i)
      with (phase_term Percolation (var w) (rice_iveg (var w)) (rice_ilanduse (var w)) i).
    rewrite !phase_term_gated.
    destruct (Qlt_le_dec (CalendarDay (var w) i) (RicePlantingDay1 (var w) i - 10))
      as [Hsat|Hflood].
    + rewrite !(season_saturation_days (var w) i Hp Hh _ (conj (proj1 Hday) Hsat)).
      reflexivity.
    + rewrite !(season_flooding_days (var w) i Hp Hh _ (conj Hflood (proj2 Hday))).
      reflexivity.
  - apply Hterms. rewrite !phase_term_gated.
    rewrite !(season_growth_days (var w) i Hp Hh _ Hday). simpl. ring.
  - apply Hterms. rewrite !phase_term_gated.
    rewrite !(season_drainage_days (var w) i Hp Hh _ Hday). simpl.
    unfold Np.mul, Np.scalar. ring.
Qed.

Lemma season_recharge_schedule_witness :
  (riceIrrigation (options (env_of true true)) = true /\
   20 <= RicePlantingDay1 (scenario 195) 0%nat /\
   RicePlantingDay1 (scenario 195) 0%nat <= RiceHarvestDay1 (scenario 195) 0%nat - 20 /\
   0 < SoilFraction (scenario 195) 1 0%nat /\
   RiceHarvestDay1 (scenario 195) 0%nat - 10 <= CalendarDay (scenario 195) 0%nat
                                           < RiceHarvestDay1 (scenario 195) 0%nat) /\
  xeq (UZ (var (dynamic_world (env_of true true) (world_of (scenario 195)))) 1 0%nat)
      (xadd (UZ (scenario 195) 1 0%nat)
            (finite (0.1 * RiceDrainageDemandM3 (scenario 195) 0 0%nat
                     * M3toMM (scenario 195) 0%nat
                     / SoilFraction (scenario 195) 1 0%nat))).
Proof.
  split.
  - split; [reflexivity|]. split; [vm_compute; discriminate|].
    split; [vm_compute; discriminate|]. split; [reflexivity|].
    split; [vm_compute; discriminate | reflexivity].
  - refine (proj2 (proj2 (season_recharge_schedule
                            (env_of true true) (world_of (scenario 195)) 0%nat
                            eq_refl _ _ _)) _).
    + vm_compute; discriminate.
    + vm_compute; discriminate.
    + reflexivity.
    + split; [vm_compute; discriminate | reflexivity].
Defined.

(** ** The maps of the second rice cycle *)

(** X16. The maps [RicePlantingDay2] and [RiceHarvestDay2] that [initial]
    loads are never read by [dynamic]: whatever they hold, the step gives the
    same outcome, the same accumulator and the same [UZ]. *)
Theorem second_cycle_maps_do_not_matter
    (e : Env) (w : World) (planting2 harvest2 : farray) :
  let w2 :=
    {| var := set_RicePlantingDay2 planting2 (set_RiceHarvestDay2 harvest2 (var w));
       loaded := loaded w |} in
  fst (dynamic e w2) = fst (dynamic e w) /\
  PaddyRiceWaterAbstractionFromSurfaceWaterM3 (var (dynamic_world e w2))
  = PaddyRiceWaterAbstractionFromSurfaceWaterM3 (var (dynamic_world e w)) /\
  UZ (var (dynamic_world e w2)) = UZ (var (dynamic_world e w)).
Proof.
  intro w2. unfold dynamic_world.
  destruct (riceIrrigation (options e)) eqn:Hflag.
  - rewrite (dynamic_on e w2 Hflag), (dynamic_on e w Hflag). repeat split.
  - rewrite (dynamic_off e w2 Hflag), (dynamic_off e w Hflag). repeat split.
Qed.
